(** * tap-db2 discovery: schema discovery and type mapping

    A shallow embedding of [tap_db2/discovery/__init__.py] and
    [tap_db2/discovery/schemas.py], followed by the properties of the
    discovery pipeline that hold of that code.

    Conventions of the embedding:
    - Python [int] is [Z]; a value that may be [None] is an [option].
    - Python [str] is [string] (its UTF-8 bytes, whose order is the order of
      the code points).  [str.lower] is a builtin with Unicode tables of its
      own: it is a parameter of the development ([StrLower]), so that every
      general statement holds of whatever function it is; closed examples
      run [ascii_lower], which agrees with it on ASCII text.
    - A Python [dict] is an association list that keeps insertion order and
      has at most one binding per key ([dict_set] overwrites in place).
    - A raised exception is the [Raise] result of the [result] monad.
    - The only floats the code can produce are [10 ** e] for a negative
      integer [e] and their negation.  [PyFloatPow10 neg e] names the float
      that [float(10) ** float(e)] evaluates to; the conversion of [e]
      overflows, and the power raises, from [float_overflow_bound] on. *)

From Stdlib Require Import List String Ascii ZArith Bool Lia.
From Stdlib Require Import Sorted Permutation.
Import ListNotations.

Local Open Scope string_scope.
Local Open Scope Z_scope.

(* ===================================================================== *)
(** * Python values, exceptions and containers                             *)
(* ===================================================================== *)

Module Py.

(** The exceptions the modelled code can raise. *)
Inductive exn : Set :=
| AttributeError
| TypeError
| KeyError
| OverflowError.

Inductive result (A : Type) : Type :=
| Ok (a : A)
| Raise (e : exn).

Arguments Ok {A} a.
Arguments Raise {A} e.

Definition bind {A B : Type} (m : result A) (f : A -> result B) : result B :=
  match m with
  | Ok a => f a
  | Raise e => Raise e
  end.

(** A [for] loop whose body may raise: the first exception ends the loop. *)
Fixpoint mapM {A B : Type} (f : A -> result B) (l : list A) : result (list B) :=
  match l with
  | [] => Ok []
  | x :: l' =>
      bind (f x) (fun y => bind (mapM f l') (fun ys => Ok (y :: ys)))
  end.

Fixpoint foldM {A S : Type} (f : S -> A -> result S) (l : list A) (s : S)
  : result S :=
  match l with
  | [] => Ok s
  | x :: l' => bind (f s x) (foldM f l')
  end.

(** ** Strings *)

(** [str.lower()].  The builtin lower-cases by the Unicode tables of the
    interpreter; the code is embedded over any such function. *)
Class StrLower : Type := lower : string -> string.

Definition lower_ascii (c : ascii) : ascii :=
  let n := nat_of_ascii c in
  if (Nat.leb 65 n && Nat.leb n 90)%bool then ascii_of_nat (n + 32) else c.

(** [str.lower()] on ASCII text: the letters A to Z move to a to z. *)
Fixpoint ascii_lower (s : string) : string :=
  match s with
  | EmptyString => EmptyString
  | String c s' => String (lower_ascii c) (ascii_lower s')
  end.

(** The instance the closed examples are run with. *)
Definition ascii_StrLower : StrLower := ascii_lower.

(** [x in l] for a list or set of strings. *)
Definition str_in (x : string) (l : list string) : bool :=
  existsb (String.eqb x) l.

(** ** Numbers

    [PyFloatPow10 neg e] stands for the float that [float(10) ** float(e)]
    evaluates to, negated when [neg] holds. *)
Inductive PyNum : Set :=
| PyInt (z : Z)
| PyFloatPow10 (neg : bool) (e : Z).

(** Converting an [int] to a [float] raises [OverflowError] once its
    magnitude rounds to [2 ** 1024], that is from [2 ** 1024 - 2 ** 970]
    on. *)
Definition float_overflow_bound : Z := 2 ^ 1024 - 2 ^ 970.

(** [10 ** e] for an integer [e]: the exact [int] when [e >= 0]; for a
    negative [e] both operands are converted to [float], which raises when
    [e] is out of range, and the result is a [float]. *)
Definition py_pow10 (e : Z) : result PyNum :=
  if e <? 0 then
    if e <=? - float_overflow_bound then Raise OverflowError
    else Ok (PyFloatPow10 false e)
  else Ok (PyInt (10 ^ e)).

Arguments float_overflow_bound : simpl never.

(** Unary minus. *)
Definition py_neg (x : PyNum) : PyNum :=
  match x with
  | PyInt z => PyInt (- z)
  | PyFloatPow10 b e => PyFloatPow10 (negb b) e
  end.

(** [a - b] where either operand may be [None]. *)
Definition py_sub (a b : option Z) : result Z :=
  match a, b with
  | Some x, Some y => Ok (x - y)
  | _, _ => Raise TypeError
  end.

(** [a == 0]: comparing [None] with [0] is [False], not an error. *)
Definition py_eq_zero (a : option Z) : bool :=
  match a with
  | Some x => x =? 0
  | None => false
  end.

(** [a > 0]: ordering [None] against an [int] raises. *)
Definition py_gt_zero (a : option Z) : result bool :=
  match a with
  | Some x => Ok (0 <? x)
  | None => Raise TypeError
  end.

(** ** Dynamically typed attribute values *)
Inductive PyVal : Set :=
| VNone
| VInt (z : Z)
| VStr (s : string).

(** [v.lower()]: only [str] has the method. *)
Definition method_lower `{StrLower} (v : PyVal) : result string :=
  match v with
  | VStr s => Ok (lower s)
  | _ => Raise AttributeError
  end.

Definition VOptInt (o : option Z) : PyVal :=
  match o with
  | Some z => VInt z
  | None => VNone
  end.

(** ** Dictionaries *)

Class EqKey (K : Type) : Type := {
  keyb : K -> K -> bool;
  keyb_spec : forall a b, keyb a b = true <-> a = b
}.

Definition list_string_eqb (a b : list string) : bool :=
  if list_eq_dec string_dec a b then true else false.

Section Dict.
Context {K V : Type} `{EqKey K}.

Definition dict : Type := list (K * V).

Fixpoint dict_get (d : dict) (k : K) : option V :=
  match d with
  | [] => None
  | (k', v) :: d' => if keyb k' k then Some v else dict_get d' k
  end.

(** [k in d] *)
Definition dict_mem (d : dict) (k : K) : bool :=
  match dict_get d k with
  | Some _ => true
  | None => false
  end.

(** [d[k] = v]: an existing key keeps its position. *)
Fixpoint dict_set (d : dict) (k : K) (v : V) : dict :=
  match d with
  | [] => [(k, v)]
  | (k', v') :: d' =>
      if keyb k' k then (k', v) :: d' else (k', v') :: dict_set d' k v
  end.

(** [d[k]] *)
Definition dict_lookup (d : dict) (k : K) : result V :=
  match dict_get d k with
  | Some v => Ok v
  | None => Raise KeyError
  end.

(** [d.get(k, default)] *)
Definition dict_get_default (d : dict) (k : K) (default : V) : V :=
  match dict_get d k with
  | Some v => v
  | None => default
  end.

(** [{k: v for (k, v) in items}] *)
Definition dict_of_items (items : list (K * V)) : dict :=
  fold_left (fun d kv => dict_set d (fst kv) (snd kv)) items [].
End Dict.

Arguments dict K V : clear implicits.

(** ** [itertools.groupby]

    One group per maximal run of consecutive elements with equal keys; the
    key of a group is the key of its first element.  The recursion is on the
    tail: the head joins the first group of the rest when the keys agree and
    opens a group of its own otherwise. *)
Fixpoint groupby {A K : Type} `{EqKey K} (key : A -> K) (l : list A)
  : list (K * list A) :=
  match l with
  | [] => []
  | x :: l' =>
      match groupby key l' with
      | (k, g) :: gs =>
          if keyb (key x) k then (key x, x :: g) :: gs
          else (key x, [x]) :: (k, g) :: gs
      | [] => [(key x, [x])]
      end
  end.

(** ** [sorted] on a list of [(int, str)] tuples

    Tuples compare lexicographically, strings by code point.  [sorted] is
    stable; the insertion below keeps equal elements in their input order. *)
Definition tuple_ltb (a b : Z * string) : bool :=
  if fst a =? fst b then String.ltb (snd a) (snd b) else fst a <? fst b.

Fixpoint insert (x : Z * string) (l : list (Z * string)) : list (Z * string) :=
  match l with
  | [] => [x]
  | y :: l' => if tuple_ltb y x then y :: insert x l' else x :: y :: l'
  end.

Fixpoint sorted (l : list (Z * string)) : list (Z * string) :=
  match l with
  | [] => []
  | x :: l' => insert x (sorted l')
  end.

End Py.

Import Py.

Declare Scope py_scope.
Notation "x <- m ;; k" := (bind m (fun x => k))
  (at level 61, m at next level, right associativity) : py_scope.
Local Open Scope py_scope.

Lemma pair_keyb_spec {A B : Type} `{EqKey A} `{EqKey B} (x y : A * B) :
  (keyb (fst x) (fst y) && keyb (snd x) (snd y))%bool = true <-> x = y.
Proof.
  destruct x as [a b], y as [a' b']; simpl.
  rewrite andb_true_iff, !keyb_spec.
  split; [intros [Ha Hb]; subst; reflexivity | intros E; inversion E; auto].
Qed.

Lemma list_string_eqb_spec (a b : list string) :
  list_string_eqb a b = true <-> a = b.
Proof.
  unfold list_string_eqb.
  destruct (list_eq_dec string_dec a b); split; congruence.
Qed.

#[export] Instance EqKey_string : EqKey string :=
  {| keyb := String.eqb; keyb_spec := String.eqb_eq |}.

#[export] Instance EqKey_pair {A B : Type} `{EqKey A} `{EqKey B}
  : EqKey (A * B) :=
  {| keyb := fun x y => (keyb (fst x) (fst y) && keyb (snd x) (snd y))%bool;
     keyb_spec := pair_keyb_spec |}.

#[export] Instance EqKey_list_string : EqKey (list string) :=
  {| keyb := list_string_eqb; keyb_spec := list_string_eqb_spec |}.

(* ===================================================================== *)
(** * The value objects of the singer library                              *)
(* ===================================================================== *)

(** [singer.catalog.Schema], [singer.catalog.CatalogEntry] and
    [singer.metadata] come from the singer-python package.  They are plain
    attribute containers; only the attributes this code reads or writes are
    kept, each [None] until assigned. *)
Module Singer.

(** [Schema.type] is the string ["object"] or a list of type names. *)
Inductive SchemaType : Set :=
| TypeName (s : string)
| TypeList (l : list string).

#[local] Unset Elimination Schemes.
Inductive Schema : Type := mkSchema {
  type : option SchemaType;
  properties : option (list (string * Schema));
  inclusion : option string;
  description : option string;
  minimum : option PyNum;
  maximum : option PyNum;
  exclusiveMinimum : option bool;
  exclusiveMaximum : option bool;
  multipleOf : option PyNum;
  maxLength : option Z;
  format : option string
}.
#[local] Set Elimination Schemes.

(** [Schema(type, inclusion=..., description=...)] with every other
    attribute left at its default. *)
Definition Schema_new (ty : option SchemaType) (incl descr : option string)
  : Schema :=
  mkSchema ty None incl descr None None None None None None None.

Definition set_type (s : Schema) (v : SchemaType) : Schema :=
  mkSchema (Some v) (properties s) (inclusion s) (description s) (minimum s)
    (maximum s) (exclusiveMinimum s) (exclusiveMaximum s) (multipleOf s)
    (maxLength s) (format s).

Definition set_properties (s : Schema) (v : list (string * Schema)) : Schema :=
  mkSchema (type s) (Some v) (inclusion s) (description s) (minimum s)
    (maximum s) (exclusiveMinimum s) (exclusiveMaximum s) (multipleOf s)
    (maxLength s) (format s).

Definition set_inclusion (s : Schema) (v : string) : Schema :=
  mkSchema (type s) (properties s) (Some v) (description s) (minimum s)
    (maximum s) (exclusiveMinimum s) (exclusiveMaximum s) (multipleOf s)
    (maxLength s) (format s).

Definition set_description (s : Schema) (v : string) : Schema :=
  mkSchema (type s) (properties s) (inclusion s) (Some v) (minimum s)
    (maximum s) (exclusiveMinimum s) (exclusiveMaximum s) (multipleOf s)
    (maxLength s) (format s).

Definition set_minimum (s : Schema) (v : PyNum) : Schema :=
  mkSchema (type s) (properties s) (inclusion s) (description s) (Some v)
    (maximum s) (exclusiveMinimum s) (exclusiveMaximum s) (multipleOf s)
    (maxLength s) (format s).

Definition set_maximum (s : Schema) (v : PyNum) : Schema :=
  mkSchema (type s) (properties s) (inclusion s) (description s) (minimum s)
    (Some v) (exclusiveMinimum s) (exclusiveMaximum s) (multipleOf s)
    (maxLength s) (format s).

Definition set_exclusiveMinimum (s : Schema) (v : bool) : Schema :=
  mkSchema (type s) (properties s) (inclusion s) (description s) (minimum s)
    (maximum s) (Some v) (exclusiveMaximum s) (multipleOf s)
    (maxLength s) (format s).

Definition set_exclusiveMaximum (s : Schema) (v : bool) : Schema :=
  mkSchema (type s) (properties s) (inclusion s) (description s) (minimum s)
    (maximum s) (exclusiveMinimum s) (Some v) (multipleOf s)
    (maxLength s) (format s).

Definition set_multipleOf (s : Schema) (v : PyNum) : Schema :=
  mkSchema (type s) (properties s) (inclusion s) (description s) (minimum s)
    (maximum s) (exclusiveMinimum s) (exclusiveMaximum s) (Some v)
    (maxLength s) (format s).

(** [s.maxLength = v] where [v] may be [None]. *)
Definition set_maxLength_opt (s : Schema) (v : option Z) : Schema :=
  mkSchema (type s) (properties s) (inclusion s) (description s) (minimum s)
    (maximum s) (exclusiveMinimum s) (exclusiveMaximum s) (multipleOf s)
    v (format s).

Definition set_format (s : Schema) (v : string) : Schema :=
  mkSchema (type s) (properties s) (inclusion s) (description s) (minimum s)
    (maximum s) (exclusiveMinimum s) (exclusiveMaximum s) (multipleOf s)
    (maxLength s) (Some v).

(** ** [singer.metadata]

    Compiled metadata maps a breadcrumb (a tuple of strings) to a dict of
    key/value pairs; the values written here are booleans and strings. *)
Inductive MdVal : Set :=
| MdBool (b : bool)
| MdStr (s : string).

Definition compiled_metadata : Type :=
  dict (list string) (dict string MdVal).

(** [metadata.write(compiled_metadata, breadcrumb, k, val)].  The library
    rejects [val = None]; [MdVal] has no such value. *)
Definition write (md : compiled_metadata) (breadcrumb : list string)
  (k : string) (val : MdVal) : compiled_metadata :=
  match dict_get md breadcrumb with
  | Some m => dict_set md breadcrumb (dict_set m k val)
  | None => dict_set md breadcrumb [(k, val)]
  end.

Record MetadataItem : Type := mkMetadataItem {
  md_breadcrumb : list string;
  md_metadata : dict string MdVal
}.

(** [metadata.to_list(compiled_metadata)] *)
Definition to_list (md : compiled_metadata) : list MetadataItem :=
  map (fun kv => mkMetadataItem (fst kv) (snd kv)) md.

Record CatalogEntry : Type := mkCatalogEntry {
  database : option string;
  table : option string;
  stream : option string;
  metadata : option (list MetadataItem);
  tap_stream_id : option string;
  schema : option Schema;
  key_properties : option (list string);
  is_view : option bool
}.

Definition set_key_properties (e : CatalogEntry) (v : list string)
  : CatalogEntry :=
  mkCatalogEntry (database e) (table e) (stream e) (metadata e)
    (tap_stream_id e) (schema e) (Some v) (is_view e).

Definition set_is_view (e : CatalogEntry) (v : bool) : CatalogEntry :=
  mkCatalogEntry (database e) (table e) (stream e) (metadata e)
    (tap_stream_id e) (schema e) (key_properties e) (Some v).

Definition set_schema (e : CatalogEntry) (v : Schema) : CatalogEntry :=
  mkCatalogEntry (database e) (table e) (stream e) (metadata e)
    (tap_stream_id e) (Some v) (key_properties e) (is_view e).

(** [Catalog(entries)] *)
Definition Catalog : Type := list CatalogEntry.

End Singer.

Import Singer.

(* ===================================================================== *)
(** * The rows of the three catalog queries                                *)
(* ===================================================================== *)

(** [Table] and [Column] are the namedtuples of [discovery/__init__.py]. *)
Record Table : Type := mkTable {
  Table_table_schema : string;
  Table_table_name : string;
  table_type : string
}.

Record Column : Type := mkColumn {
  Column_table_schema : string;
  Column_table_name : string;
  column_name : string;
  data_type : string;
  character_maximum_length : option Z;
  numeric_precision : option Z;
  numeric_scale : option Z
}.

(** Reading an attribute of a [Column] by name.  The namedtuple declares
    exactly the seven fields below; any other name raises
    [AttributeError]. *)
Definition Column_getattr (c : Column) (attr : string) : result PyVal :=
  if (attr =? "table_schema")%string then Ok (VStr (Column_table_schema c))
  else if (attr =? "table_name")%string then Ok (VStr (Column_table_name c))
  else if (attr =? "column_name")%string then Ok (VStr (column_name c))
  else if (attr =? "data_type")%string then Ok (VStr (data_type c))
  else if (attr =? "character_maximum_length")%string
       then Ok (VOptInt (character_maximum_length c))
  else if (attr =? "numeric_precision")%string then Ok (VOptInt (numeric_precision c))
  else if (attr =? "numeric_scale")%string then Ok (VOptInt (numeric_scale c))
  else Raise AttributeError.

(** Both namedtuples carry [table_schema] and [table_name]; [_table_id]
    is applied to either. *)
Class HasTableId (A : Type) : Type := {
  table_schema : A -> string;
  table_name : A -> string
}.

#[export] Instance HasTableId_Table : HasTableId Table :=
  {| table_schema := Table_table_schema; table_name := Table_table_name |}.

#[export] Instance HasTableId_Column : HasTableId Column :=
  {| table_schema := Column_table_schema; table_name := Column_table_name |}.

(* ===================================================================== *)
(** * [discovery/schemas.py]                                               *)
(* ===================================================================== *)

Module Schemas.

Definition BYTES_FOR_INTEGER_TYPE : dict string Z :=
  [("smallint", 2); ("integer", 4); ("bigint", 8)].

Definition FLOAT_TYPES : list string := ["float"; "decfloat"].

Definition DECIMAL_TYPES : list string := ["decimal"; "numeric"].

Definition STRING_TYPES : list string := ["char"; "varchar"].

Definition DATETIME_TYPES : list string := ["date"; "timestmp"; "time"].

Definition _for_column `{StrLower} (col : Column) (pk_columns : list string)
  : result Schema :=
  let data_type := lower (data_type col) in
  let inclusion :=
    if str_in (lower (column_name col)) (map lower pk_columns)
    then "automatic" else "available" in
  let result := Schema_new None (Some inclusion) None in
  match dict_get BYTES_FOR_INTEGER_TYPE data_type with
  | Some bytes =>
      let result := set_type result (TypeList ["null"; "integer"]) in
      let bits := bytes * 8 in
      let result := set_minimum result (PyInt (0 - 2 ^ (bits - 1))) in
      let result := set_maximum result (PyInt (2 ^ (bits - 1) - 1)) in
      Ok result
  | None =>
      if str_in data_type FLOAT_TYPES then
        Ok (set_type result (TypeList ["null"; "number"]))
      else if str_in data_type DECIMAL_TYPES then
        result <-
          (if py_eq_zero (numeric_scale col) then
             Ok (set_type result (TypeList ["null"; "integer"]))
           else
             let result := set_type result (TypeList ["null"; "number"]) in
             e <- py_sub (Some 0) (numeric_scale col) ;;
             m <- py_pow10 e ;;
             Ok (set_multipleOf result m)) ;;
        let result := set_exclusiveMaximum result true in
        e <- py_sub (numeric_precision col) (numeric_scale col) ;;
        m <- py_pow10 e ;;
        let result := set_maximum result m in
        let result := set_exclusiveMinimum result true in
        e <- py_sub (numeric_precision col) (numeric_scale col) ;;
        m <- py_pow10 e ;;
        let result := set_minimum result (py_neg m) in
        Ok result
      else if str_in data_type STRING_TYPES then
        let result := set_type result (TypeList ["null"; "string"]) in
        positive <- py_gt_zero (character_maximum_length col) ;;
        if positive : bool then
          Ok (set_maxLength_opt result (character_maximum_length col))
        else Ok result
      else if str_in data_type DATETIME_TYPES then
        let result := set_type result (TypeList ["null"; "string"]) in
        Ok (set_format result "date-time")
      else
        let err := "Unsupported data type " ++ data_type in
        Ok (Schema_new None (Some "unsupported") (Some err))
  end.

(** [generate]: the comprehension maps the columns in order, so the first
    column whose mapping raises ends it. *)
Definition generate `{StrLower} (columns : list Column)
  (pk_columns : list string) : result Schema :=
  items <- mapM (fun c => f <- _for_column c pk_columns ;;
                          Ok (column_name c, f)) columns ;;
  let properties := dict_of_items items in
  Ok (set_properties (Schema_new (Some (TypeName "object")) None None)
        properties).

End Schemas.

(* ===================================================================== *)
(** * [discovery/__init__.py]                                              *)
(* ===================================================================== *)

Module Discovery.

Definition TableRow : Type := string * string * string.

Definition ColumnRow : Type :=
  string * string * string * string * option Z * option Z * option Z.

Definition PrimaryKeyRow : Type := string * string * string * Z.

(** What the cursor behind [config] yields for each of the three catalog
    queries, in the order it yields it. *)
Record Config : Type := mkConfig {
  systables : list TableRow;
  syscolumns : list ColumnRow;
  syskeycst : list PrimaryKeyRow
}.

Definition _query_tables (config : Config) : list TableRow :=
  systables config.

Definition _query_columns (config : Config) : list ColumnRow :=
  syscolumns config.

Definition _query_primary_keys (config : Config) : list PrimaryKeyRow :=
  syskeycst config.

(** The namedtuple [Table] built from a raw row. *)
Definition Table_of_row (rec : TableRow) : Table :=
  let '(s, n, t) := rec in mkTable s n t.

(** The namedtuple [Column] built from a raw row. *)
Definition Column_of_row (rec : ColumnRow) : Column :=
  let '(s, n, c, d, len, prec, scale) := rec in mkColumn s n c d len prec scale.

Definition TableId : Type := string * string.

Definition _table_id {A : Type} `{HasTableId A} (table : A) : TableId :=
  (table_schema table, table_name table).

Definition _find_tables (config : Config) : dict TableId Table :=
  let results := _query_tables config in
  let tbls := map Table_of_row results in
  dict_of_items (map (fun t => (_table_id t, t)) tbls).

Definition _find_columns (config : Config) (tables : dict TableId Table)
  : list Column :=
  let results := _query_columns config in
  let cols := map Column_of_row results in
  filter (fun c => dict_mem tables (table_schema c, table_name c)) cols.

(** The body of the loop of [_find_primary_keys]. *)
Definition _find_primary_keys_step (tables : dict TableId Table)
  (keys : dict TableId (list (Z * string))) (row : PrimaryKeyRow)
  : dict TableId (list (Z * string)) :=
  let '(table_schema, table_name, column_name, ordinal_pos) := row in
  let table_id := (table_schema, table_name) in
  if negb (dict_mem tables table_id) then keys
  else
    let keys :=
      if negb (dict_mem keys table_id) then dict_set keys table_id []
      else keys in
    dict_set keys table_id
      (dict_get_default keys table_id [] ++ [(ordinal_pos, column_name)])%list.

Definition _find_primary_keys (config : Config) (tables : dict TableId Table)
  : dict TableId (list string) :=
  let results := _query_primary_keys config in
  let keys := fold_left (_find_primary_keys_step tables) results [] in
  dict_of_items (map (fun kv => (fst kv, map snd (sorted (snd kv)))) keys).

(** [a != s] for an attribute [a] that may be [None]. *)
Definition py_str_ne (a : option string) (s : string) : bool :=
  match a with
  | Some x => negb (x =? s)%string
  | None => true
  end.

(** The body of the loop of [_create_column_metadata].  The arguments of the
    second [metadata.write] are evaluated before the call, so reading
    [col.column_type] comes after the first write. *)
Definition _create_column_metadata_step `{StrLower} (schema : Schema)
  (mdata : compiled_metadata) (col : Column) : result compiled_metadata :=
  props <- match properties schema with
           | Some p => Ok p
           | None => Raise TypeError
           end ;;
  col_schema <- dict_lookup props (column_name col) ;;
  let mdata :=
    write mdata ["properties"; column_name col] "selected-by-default"
      (MdBool (py_str_ne (inclusion col_schema) "unsupported")) in
  column_type <- Column_getattr col "column_type" ;;
  lowered <- method_lower column_type ;;
  Ok (write mdata ["properties"; column_name col] "sql-datatype"
        (MdStr lowered)).

Definition _create_column_metadata `{StrLower} (cols : list Column)
  (schema : Schema) : result (list MetadataItem) :=
  let mdata := [] in
  let mdata := write mdata [] "selected-by-default" (MdBool false) in
  mdata <- foldM (_create_column_metadata_step schema) cols mdata ;;
  Ok (to_list mdata).

Definition known_types : dict string string :=
  [("A", "Alias");
   ("L", "Logical file");
   ("M", "Materialized query table");
   ("P", "Physical file")].

(** The entry and its schema are updated in place in the source; here the
    updated entry is returned. *)
Definition _update_entry_for_table_type (catalog_entry : CatalogEntry)
  (table_type : string) : result CatalogEntry :=
  let catalog_entry := set_is_view catalog_entry (table_type =? "V")%string in
  if negb (str_in table_type ["T"; "V"]) then
    match schema catalog_entry with
    | None => Raise AttributeError
    | Some s =>
        let s := set_inclusion s "unsupported" in
        let hint := dict_get_default known_types table_type "Unknown" in
        let err :=
          "Unsupported table type " ++ table_type ++ " (" ++ hint ++ ")" in
        Ok (set_schema catalog_entry (set_description s err))
    end
  else Ok catalog_entry.

(** The groups the loop of [discover] runs over. *)
Definition discover_groups (config : Config) : list (TableId * list Column) :=
  let tables := _find_tables config in
  let columns := _find_columns config tables in
  groupby _table_id columns.

(** The body of the loop of [discover]. *)
Definition discover_entry `{StrLower} (tables : dict TableId Table)
  (pks : dict TableId (list string)) (group : TableId * list Column)
  : result CatalogEntry :=
  let '(table_id, cols) := group in
  let '(table_schema, table_name) := table_id in
  let pk_columns := dict_get_default pks table_id [] in
  schema <- Schemas.generate cols pk_columns ;;
  mdata <- _create_column_metadata cols schema ;;
  let entry :=
    mkCatalogEntry (Some table_schema) (Some table_name) (Some table_name)
      (Some mdata) (Some (table_schema ++ "-" ++ table_name)) (Some schema)
      None None in
  let entry :=
    match dict_get pks table_id with
    | Some pk => set_key_properties entry pk
    | None => entry
    end in
  t <- dict_lookup tables table_id ;;
  _update_entry_for_table_type entry (table_type t).

Definition discover `{StrLower} (config : Config) : result Catalog :=
  let tables := _find_tables config in
  let pks := _find_primary_keys config tables in
  mapM (discover_entry tables pks) (discover_groups config).

End Discovery.

(* ===================================================================== *)
(** * Properties of the type mapper                                        *)
(* ===================================================================== *)

Module SchemasSpec.
Import Schemas.

(** A lower-cased native type belongs to one of the five type families. *)
Definition recognized (dt : string) : bool :=
  (dict_mem BYTES_FOR_INTEGER_TYPE dt || str_in dt FLOAT_TYPES
   || str_in dt DECIMAL_TYPES || str_in dt STRING_TYPES
   || str_in dt DATETIME_TYPES)%bool.

Definition is_int (a : option Z) : bool :=
  match a with
  | Some _ => true
  | None => false
  end.

Lemma str_in_spec (x : string) (l : list string) :
  str_in x l = true <-> In x l.
Proof.
  unfold str_in. rewrite existsb_exists. split.
  - intros [y [Hin Heq]]. apply String.eqb_eq in Heq. now subst.
  - intros Hin. exists x. split; [assumption | apply String.eqb_refl].
Qed.

Lemma float_overflow_bound_pos : 0 < float_overflow_bound.
Proof. reflexivity. Qed.

Lemma py_pow10_nonneg (e : Z) : 0 <= e -> py_pow10 e = Ok (PyInt (10 ^ e)).
Proof.
  intros He. unfold py_pow10.
  destruct (Z.ltb_spec e 0); [lia | reflexivity].
Qed.

Lemma py_pow10_float (e : Z) :
  e < 0 -> - float_overflow_bound < e ->
  py_pow10 e = Ok (PyFloatPow10 false e).
Proof.
  intros Hneg Hrange. unfold py_pow10.
  destruct (Z.ltb_spec e 0); [| lia].
  destruct (Z.leb_spec e (- float_overflow_bound)); [lia | reflexivity].
Qed.

Lemma py_pow10_overflow (e : Z) :
  e <= - float_overflow_bound -> py_pow10 e = Raise OverflowError.
Proof.
  intros Hrange. pose proof float_overflow_bound_pos as Hpos.
  unfold py_pow10. destruct (Z.ltb_spec e 0); [| lia].
  destruct (Z.leb_spec e (- float_overflow_bound)); [reflexivity | lia].
Qed.

(** The three ways [10 ** e] can go. *)
Lemma py_pow10_cases (e : Z) :
  (0 <= e /\ py_pow10 e = Ok (PyInt (10 ^ e)))
  \/ (e < 0 /\ - float_overflow_bound < e
      /\ py_pow10 e = Ok (PyFloatPow10 false e))
  \/ (e <= - float_overflow_bound /\ py_pow10 e = Raise OverflowError).
Proof.
  destruct (Z.le_gt_cases 0 e) as [Hnn | Hneg].
  - left. split; [assumption | now apply py_pow10_nonneg].
  - destruct (Z.le_gt_cases e (- float_overflow_bound)) as [Hov | Hin].
    + right. right. split; [assumption | now apply py_pow10_overflow].
    + right. left. split; [assumption |].
      split; [assumption | now apply py_pow10_float].
Qed.

Section Mapper.
Context `{StrLower}.

(** The column name matches, ignoring case, one of the primary-key names. *)
Definition pk_member (col : Column) (pk_columns : list string) : Prop :=
  exists x, In x pk_columns /\ lower x = lower (column_name col).

(** The attributes the mapper computes with for the column's type family
    can be computed with: the scale and precision of a decimal are integers
    whose negative exponents stay in the range of a float, the length of a
    string is an integer. *)
Definition fields_usable (col : Column) : bool :=
  let dt := lower (data_type col) in
  if str_in dt DECIMAL_TYPES then
    match numeric_scale col, numeric_precision col with
    | Some s, Some p =>
        ((s <? float_overflow_bound) && (s - p <? float_overflow_bound))%bool
    | _, _ => false
    end
  else if str_in dt STRING_TYPES then is_int (character_maximum_length col)
  else true.

Lemma str_in_map_lower (col : Column) (pk_columns : list string) :
  str_in (lower (column_name col)) (map lower pk_columns) = true
  <-> pk_member col pk_columns.
Proof.
  rewrite str_in_spec, in_map_iff. unfold pk_member.
  split; intros [x Hx]; exists x; tauto.
Qed.

Lemma pk_member_dec (col : Column) (pk_columns : list string) :
  {pk_member col pk_columns} + {~ pk_member col pk_columns}.
Proof.
  destruct (str_in (lower (column_name col)) (map lower pk_columns)) eqn:E.
  - left. now apply str_in_map_lower.
  - right. intros Hm. apply str_in_map_lower in Hm. congruence.
Qed.

(** The decimal and string families are told apart from the families the
    mapper tests before them. *)
Lemma decimal_family_branch (dt : string) :
  In dt DECIMAL_TYPES ->
  dict_get BYTES_FOR_INTEGER_TYPE dt = None
  /\ str_in dt FLOAT_TYPES = false
  /\ str_in dt DECIMAL_TYPES = true.
Proof. intros [<- | [<- | []]]; repeat split; reflexivity. Qed.

Lemma string_family_branch (dt : string) :
  In dt STRING_TYPES ->
  dict_get BYTES_FOR_INTEGER_TYPE dt = None
  /\ str_in dt FLOAT_TYPES = false
  /\ str_in dt DECIMAL_TYPES = false
  /\ str_in dt STRING_TYPES = true.
Proof. intros [<- | [<- | []]]; repeat split; reflexivity. Qed.

(** C3: a smallint, integer or bigint column (2, 4 or 8 bytes) maps to a
    nullable integer whose minimum is [-2^(8*bytes-1)] and whose maximum is
    [2^(8*bytes-1) - 1], so the maximum is minus the minimum, minus one. *)
Theorem for_column_integer_family (col : Column) (pk_columns : list string)
  (bytes : Z) :
  (lower (data_type col) = "smallint" /\ bytes = 2)
  \/ (lower (data_type col) = "integer" /\ bytes = 4)
  \/ (lower (data_type col) = "bigint" /\ bytes = 8) ->
  exists f mn mx,
    _for_column col pk_columns = Ok f
    /\ type f = Some (TypeList ["null"; "integer"])
    /\ minimum f = Some (PyInt mn)
    /\ maximum f = Some (PyInt mx)
    /\ mn = - 2 ^ (8 * bytes - 1)
    /\ mx = 2 ^ (8 * bytes - 1) - 1
    /\ mx = - mn - 1.
Proof.
  intros Hty. unfold _for_column.
  destruct Hty as [[-> ->] | [[-> ->] | [-> ->]]]; simpl dict_get; cbv zeta;
    do 3 eexists; (split; [reflexivity |]); cbn [type minimum maximum];
    unfold set_maximum, set_minimum, set_type; cbn [type minimum maximum];
    repeat split; reflexivity.
Qed.

(** C4, as the code has it: a decimal or numeric column whose precision [p]
    and scale [s] are integers, with [s] and [s - p] below the bound at
    which a negative exponent stops fitting a float, maps to a nullable
    integer when [s = 0] and to a nullable number with
    [multipleOf = 10 ** (-s)] otherwise (the float [10.0 ** -s] for a
    positive scale), and carries the exclusive bounds [10 ** (p - s)] and
    [-(10 ** (p - s))].  With the scale or the precision absent the mapper
    raises [TypeError], beyond the bound [OverflowError]. *)
Theorem for_column_decimal_family (col : Column) (pk_columns : list string) :
  In (lower (data_type col)) DECIMAL_TYPES ->
  match numeric_scale col, numeric_precision col with
  | Some s, Some p =>
      if ((s <? float_overflow_bound)
          && (s - p <? float_overflow_bound))%bool
      then
        exists f,
          _for_column col pk_columns = Ok f
          /\ (s = 0 -> type f = Some (TypeList ["null"; "integer"])
                       /\ multipleOf f = None)
          /\ (s <> 0 -> type f = Some (TypeList ["null"; "number"]))
          /\ (0 < s -> multipleOf f = Some (PyFloatPow10 false (- s)))
          /\ (s < 0 -> multipleOf f = Some (PyInt (10 ^ (- s))))
          /\ exclusiveMaximum f = Some true
          /\ exclusiveMinimum f = Some true
          /\ (s <= p -> maximum f = Some (PyInt (10 ^ (p - s)))
                        /\ minimum f = Some (PyInt (- 10 ^ (p - s))))
          /\ (p < s -> maximum f = Some (PyFloatPow10 false (p - s))
                       /\ minimum f = Some (PyFloatPow10 true (p - s)))
      else _for_column col pk_columns = Raise OverflowError
  | Some s, None =>
      _for_column col pk_columns
      = Raise (if s <? float_overflow_bound then TypeError
               else OverflowError)
  | None, _ => _for_column col pk_columns = Raise TypeError
  end.
Proof.
  intros Hty. pose proof float_overflow_bound_pos as Hpos.
  destruct (decimal_family_branch _ Hty) as (Hint & Hfloat & Hdec).
  unfold _for_column. rewrite Hint, Hfloat, Hdec. clear Hint Hfloat Hdec.
  destruct (numeric_scale col) as [s |]; [| reflexivity].
  cbn [py_eq_zero py_sub bind].
  destruct (Z.ltb_spec s float_overflow_bound) as [Hs | Hs].
  - (* the scale is in range *)
    assert (Hmul : s <> 0 ->
                   py_pow10 (0 - s)
                   = Ok (if 0 <? s then PyFloatPow10 false (- s)
                         else PyInt (10 ^ (- s)))).
    { intros Hnz. replace (0 - s) with (- s) by lia.
      destruct (Z.ltb_spec 0 s).
      - apply py_pow10_float; lia.
      - apply py_pow10_nonneg; lia. }
    destruct (numeric_precision col) as [p |]; cbn [py_sub bind].
    + cbn [andb].
      destruct (Z.ltb_spec (s - p) float_overflow_bound) as [Hps | Hps].
      * (* both exponents are in range *)
        assert (Hbound : py_pow10 (p - s)
                         = Ok (if p - s <? 0 then PyFloatPow10 false (p - s)
                               else PyInt (10 ^ (p - s)))).
        { destruct (Z.ltb_spec (p - s) 0).
          - apply py_pow10_float; lia.
          - apply py_pow10_nonneg; lia. }
        destruct (Z.eqb_spec s 0) as [Hz | Hnz].
        -- rewrite Hbound. cbn [bind]. eexists. split; [reflexivity |].
           cbn. destruct (Z.ltb_spec (p - s) 0);
             repeat split; try reflexivity; intros; exfalso; lia.
        -- rewrite (Hmul Hnz). cbn [bind]. rewrite Hbound. cbn [bind].
           eexists. split; [reflexivity |]. cbn.
           destruct (Z.ltb_spec 0 s); destruct (Z.ltb_spec (p - s) 0);
             repeat split; try reflexivity; intros; exfalso; lia.
      * (* the bound's exponent overflows *)
        assert (Hov : py_pow10 (p - s) = Raise OverflowError)
          by (apply py_pow10_overflow; lia).
        destruct (Z.eqb_spec s 0) as [Hz | Hnz].
        -- now rewrite Hov.
        -- rewrite (Hmul Hnz). cbn [bind]. now rewrite Hov.
    + destruct (Z.eqb_spec s 0) as [Hz | Hnz]; [reflexivity |].
      now rewrite (Hmul Hnz).
  - (* the scale itself overflows *)
    assert (Hnz : s <> 0) by lia.
    assert (Hov : py_pow10 (0 - s) = Raise OverflowError)
      by (apply py_pow10_overflow; lia).
    destruct (Z.eqb_spec s 0) as [Hz | _]; [contradiction |].
    rewrite Hov. now destruct (numeric_precision col).
Qed.

Lemma decimal_unusable_raises (col : Column) (pk_columns : list string) :
  In (lower (data_type col)) DECIMAL_TYPES ->
  match numeric_scale col, numeric_precision col with
  | Some s, Some p =>
      ((s <? float_overflow_bound) && (s - p <? float_overflow_bound))%bool
  | _, _ => false
  end = false ->
  exists e, _for_column col pk_columns = Raise e.
Proof.
  intros Hty Hbad. pose proof float_overflow_bound_pos as Hpos.
  destruct (decimal_family_branch _ Hty) as (Hint & Hfloat & Hdec).
  unfold _for_column. rewrite Hint, Hfloat, Hdec. clear Hint Hfloat Hdec.
  destruct (numeric_scale col) as [s |]; [| now eexists].
  cbn [py_eq_zero py_sub bind].
  assert (Hbound : forall p,
             numeric_precision col = Some p ->
             s < float_overflow_bound ->
             py_pow10 (p - s) = Raise OverflowError).
  { intros p Hp Hs. rewrite Hp in Hbad.
    destruct (Z.ltb_spec s float_overflow_bound); [| lia].
    cbn [andb] in Hbad. apply Z.ltb_ge in Hbad.
    apply py_pow10_overflow. lia. }
  destruct (Z.eqb_spec s 0) as [Hz | Hnz].
  - destruct (numeric_precision col) as [p |]; cbn [py_sub bind];
      [| now eexists].
    rewrite (Hbound p eq_refl) by lia. now eexists.
  - destruct (py_pow10_cases (0 - s)) as [[Hr ->] | [(Hr & Hr' & ->) | [_ ->]]];
      cbn [bind]; [| | now eexists];
      (destruct (numeric_precision col) as [p |]; cbn [py_sub bind];
       [| now eexists]);
      rewrite (Hbound p eq_refl) by lia; now eexists.
Qed.

(** Closes the three statements about the inclusion of a fragment the goal
    displays, given how the name test went. *)
Ltac inclusion_cases Hpk :=
  eexists; (split; [reflexivity |]); cbn;
  (split; [split |]); try (split; intros); try intros [? ?];
  try reflexivity; try discriminate; try (apply Hpk; reflexivity);
  try (exfalso; match goal with
                | Hn : ~ _ |- _ => apply Hn, Hpk; reflexivity
                end);
  try (match goal with
       | Hm : _ |- _ => apply Hpk in Hm; discriminate
       end).

(** C5, as the code has it: the mapper returns a fragment exactly when the
    attributes it computes with are usable; the fragment's inclusion is then
    "automatic" exactly when the column name matches a primary-key name and
    the type is recognized, "available" when the type is recognized and
    nothing matches, and "unsupported" when the type is not recognized,
    matched or not.  Otherwise it raises and no inclusion is set. *)
Theorem for_column_inclusion_policy (col : Column) (pk_columns : list string) :
  (fields_usable col = true ->
   exists f,
     _for_column col pk_columns = Ok f
     /\ (inclusion f = Some "automatic"
         <-> pk_member col pk_columns
             /\ recognized (lower (data_type col)) = true)
     /\ (~ pk_member col pk_columns ->
         recognized (lower (data_type col)) = true ->
         inclusion f = Some "available")
     /\ (recognized (lower (data_type col)) = false ->
         inclusion f = Some "unsupported"))
  /\ (recognized (lower (data_type col)) = false ->
      fields_usable col = true)
  /\ (fields_usable col = false ->
      exists e, _for_column col pk_columns = Raise e).
Proof.
  split; [| split].
  - unfold fields_usable, recognized, dict_mem, _for_column, py_eq_zero.
    pose proof (str_in_map_lower col pk_columns) as Hpk.
    pose proof float_overflow_bound_pos as Hpos.
    destruct (str_in (lower (column_name col)) (map lower pk_columns));
      (destruct (dict_get BYTES_FOR_INTEGER_TYPE (lower (data_type col)));
       [intros _; inclusion_cases Hpk |]);
      (destruct (str_in (lower (data_type col)) FLOAT_TYPES);
       [intros _; inclusion_cases Hpk |]);
      (destruct (str_in (lower (data_type col)) DECIMAL_TYPES);
       [destruct (numeric_scale col) as [s |]; [| discriminate];
        destruct (numeric_precision col) as [p |]; [| discriminate];
        destruct (Z.ltb_spec s float_overflow_bound); [| discriminate];
        destruct (Z.ltb_spec (s - p) float_overflow_bound);
          [| discriminate];
        intros _; cbn [py_sub bind];
        (destruct (Z.ltb_spec (p - s) 0);
         [rewrite !(py_pow10_float (p - s)) by lia
         | rewrite !(py_pow10_nonneg (p - s)) by lia]);
        (destruct (Z.eqb_spec s 0);
         [| destruct (Z.ltb_spec 0 s);
            [rewrite (py_pow10_float (0 - s)) by lia
            | rewrite (py_pow10_nonneg (0 - s)) by lia]]);
        cbn [bind]; inclusion_cases Hpk |]);
      (destruct (str_in (lower (data_type col)) STRING_TYPES);
       [destruct (character_maximum_length col) as [n |]; [| discriminate];
        intros _; cbn [py_gt_zero bind]; destruct (0 <? n);
        inclusion_cases Hpk |]);
      destruct (str_in (lower (data_type col)) DATETIME_TYPES);
      intros _; inclusion_cases Hpk.
  - unfold recognized, fields_usable. intros Hrec.
    repeat (apply orb_false_iff in Hrec; destruct Hrec as [Hrec ?]).
    repeat match goal with
           | Hf : str_in _ _ = false |- _ => rewrite Hf; clear Hf
           end.
    reflexivity.
  - unfold fields_usable. intros Hbad.
    destruct (str_in (lower (data_type col)) DECIMAL_TYPES) eqn:Edec.
    + apply str_in_spec in Edec.
      now apply decimal_unusable_raises.
    + destruct (str_in (lower (data_type col)) STRING_TYPES) eqn:Estr;
        [| discriminate].
      apply str_in_spec in Estr.
      destruct (string_family_branch _ Estr) as (Hint & Hfloat & _ & Hstr).
      unfold _for_column. rewrite Hint, Hfloat, Edec, Hstr.
      destruct (character_maximum_length col); [discriminate | now eexists].
Qed.

Lemma mapM_app_remove {A B : Type} (f : A -> result B) (x : A) (y : B)
  (l1 l2 : list A) (e : exn) :
  f x = Ok y ->
  mapM f (l1 ++ x :: l2) = Raise e ->
  mapM f (l1 ++ l2) = Raise e.
Proof.
  intros Hx. induction l1 as [| a l1 IH]; simpl.
  - rewrite Hx. simpl. destruct (mapM f l2); simpl; congruence.
  - destruct (f a); simpl; [| trivial].
    destruct (mapM f (l1 ++ x :: l2)) eqn:E1; simpl; [discriminate |].
    intros Heq. injection Heq as ->. rewrite IH; reflexivity.
Qed.

(** What the mapper returns for a type outside the five families. *)
Lemma for_column_unrecognized_fragment (col : Column)
  (pk_columns : list string) :
  recognized (lower (data_type col)) = false ->
  _for_column col pk_columns
  = Ok (Schema_new None (Some "unsupported")
          (Some ("Unsupported data type " ++ lower (data_type col)))).
Proof.
  intros Hrec. unfold recognized, dict_mem in Hrec. unfold _for_column.
  destruct (dict_get BYTES_FOR_INTEGER_TYPE (lower (data_type col)));
    [discriminate |].
  repeat (apply orb_false_iff in Hrec; destruct Hrec as [Hrec ?]).
  repeat match goal with
         | Hf : str_in _ _ = false |- _ => rewrite Hf; clear Hf
         end.
  reflexivity.
Qed.

(** [generate] never fails because of a column of an unrecognized type: if
    it raises with the column present it raises without it. *)
Lemma generate_unrecognized_removable (col : Column)
  (pk_columns : list string) (cols1 cols2 : list Column) (e : exn) :
  recognized (lower (data_type col)) = false ->
  generate (cols1 ++ col :: cols2) pk_columns = Raise e ->
  generate (cols1 ++ cols2) pk_columns = Raise e.
Proof.
  intros Hrec. unfold generate.
  destruct (mapM _ (cols1 ++ col :: cols2)) eqn:E; simpl; [discriminate |].
  intros Heq. injection Heq as ->.
  erewrite mapM_app_remove; [reflexivity | | exact E].
  rewrite (for_column_unrecognized_fragment _ _ Hrec). reflexivity.
Qed.

(** C7, as the code has it: a char or varchar column whose
    [character_maximum_length] is an integer [n] maps to a nullable string
    that carries [maxLength = n] exactly when [n > 0]; when the length is
    [None] the comparison [None > 0] raises [TypeError] and no fragment is
    returned. *)
Theorem for_column_string_family (col : Column) (pk_columns : list string) :
  In (lower (data_type col)) STRING_TYPES ->
  match character_maximum_length col with
  | Some n =>
      exists f,
        _for_column col pk_columns = Ok f
        /\ type f = Some (TypeList ["null"; "string"])
        /\ (0 < n -> maxLength f = Some n)
        /\ (n <= 0 -> maxLength f = None)
        /\ (forall m, maxLength f = Some m <-> m = n /\ 0 < n)
  | None => _for_column col pk_columns = Raise TypeError
  end.
Proof.
  intros Hty.
  destruct (string_family_branch _ Hty) as (Hint & Hfloat & Hdec & Hstr).
  unfold _for_column. rewrite Hint, Hfloat, Hdec, Hstr.
  destruct (character_maximum_length col) as [n |]; simpl; [| reflexivity].
  destruct (Z.ltb_spec 0 n) as [Hpos | Hneg]; simpl;
    eexists; (split; [reflexivity |]); simpl;
    (split; [reflexivity |]).
  - split; [reflexivity |]. split; [intros; exfalso; lia |].
    intros m. split.
    + intros Hm. injection Hm as <-. split; [reflexivity | assumption].
    + intros [-> _]. reflexivity.
  - split; [intros; exfalso; lia |]. split; [reflexivity |].
    intros m. split; [discriminate | intros [_ ?]; exfalso; lia].
Qed.

End Mapper.

(** ** Examples, run with [ascii_lower] *)

#[local] Existing Instance ascii_StrLower.

Lemma for_column_integer_family_witness :
  exists f mn mx,
    _for_column (mkColumn "S" "T" "ID" "SmallInt" None None None) ["id"] = Ok f
    /\ type f = Some (TypeList ["null"; "integer"])
    /\ minimum f = Some (PyInt mn)
    /\ maximum f = Some (PyInt mx)
    /\ mn = - 2 ^ (8 * 2 - 1)
    /\ mx = 2 ^ (8 * 2 - 1) - 1
    /\ mx = - mn - 1.
Proof.
  apply (for_column_integer_family
           (mkColumn "S" "T" "ID" "SmallInt" None None None) ["id"] 2).
  left. split; reflexivity.
Defined.

(** Scenario 1 of the spec: a smallint primary-key column. *)
Example for_column_smallint_pk :
  _for_column (mkColumn "S" "T" "ID" "smallint" None None None) ["ID"]
  = Ok (mkSchema (Some (TypeList ["null"; "integer"])) None
          (Some "automatic") None (Some (PyInt (-32768)))
          (Some (PyInt 32767)) None None None None None).
Proof. reflexivity. Qed.

(** Scenario 5 of the spec: decimal(10, 2). *)
Lemma for_column_decimal_family_witness :
  exists f,
    _for_column (mkColumn "S" "T" "AMOUNT" "DECIMAL" None (Some 10) (Some 2)) []
    = Ok f
    /\ type f = Some (TypeList ["null"; "number"])
    /\ multipleOf f = Some (PyFloatPow10 false (-2))
    /\ maximum f = Some (PyInt 100000000)
    /\ minimum f = Some (PyInt (-100000000)).
Proof.
  pose proof (for_column_decimal_family
                (mkColumn "S" "T" "AMOUNT" "DECIMAL" None (Some 10) (Some 2))
                [] (or_introl eq_refl)) as Hw.
  cbn [numeric_scale numeric_precision] in Hw.
  replace ((2 <? float_overflow_bound)
           && (2 - 10 <? float_overflow_bound))%bool with true in Hw
    by (vm_compute; reflexivity).
  destruct Hw as (f & Hf & _ & Hty & Hmul & _ & _ & _ & Hint & _).
  exists f. split; [exact Hf |]. split; [apply Hty; discriminate |].
  split; [apply Hmul; reflexivity |]. apply Hint. discriminate.
Defined.

(** C4 as stated fails where the mapper cannot compute the powers: a
    decimal column without a scale raises [TypeError], and one whose scale
    is beyond the range of a float raises [OverflowError]. *)
Lemma for_column_decimal_unusable_raises :
  In (lower (data_type (mkColumn "S" "T" "AMOUNT" "decimal" None (Some 10)
                          None)))
    DECIMAL_TYPES
  /\ _for_column (mkColumn "S" "T" "AMOUNT" "decimal" None (Some 10) None) []
     = Raise TypeError
  /\ _for_column
       (mkColumn "S" "T" "AMOUNT" "decimal" None (Some 10) (Some (2 ^ 1024)))
       []
     = Raise OverflowError
  /\ ~ (exists f,
          _for_column (mkColumn "S" "T" "AMOUNT" "decimal" None (Some 10)
                         None) []
          = Ok f).
Proof.
  split; [left; reflexivity |]. split; [reflexivity |].
  split; [vm_compute; reflexivity |].
  intros [f Hf]. discriminate Hf.
Qed.

Lemma for_column_inclusion_policy_witness :
  exists f,
    _for_column (mkColumn "S" "T" "Code" "CHAR" (Some 3) None None) ["CODE"]
    = Ok f
    /\ inclusion f = Some "automatic".
Proof.
  destruct (for_column_inclusion_policy
              (mkColumn "S" "T" "Code" "CHAR" (Some 3) None None) ["CODE"])
    as [Hpolicy _].
  destruct (Hpolicy eq_refl) as [f [Hf [Hauto _]]].
  exists f. split; [exact Hf |]. apply Hauto. split.
  - exists "CODE". split; [left |]; reflexivity.
  - reflexivity.
Defined.

(** C5 as stated fails on a column the mapper cannot map: a varchar
    primary-key column without a length matches a key name and has a
    recognized type, yet the mapper raises and sets no inclusion. *)
Lemma for_column_pk_without_length_raises :
  pk_member (mkColumn "S" "T" "NAME" "varchar" None None None) ["NAME"]
  /\ recognized
       (lower (data_type (mkColumn "S" "T" "NAME" "varchar" None None None)))
     = true
  /\ _for_column (mkColumn "S" "T" "NAME" "varchar" None None None) ["NAME"]
     = Raise TypeError
  /\ ~ (exists f,
          _for_column (mkColumn "S" "T" "NAME" "varchar" None None None)
            ["NAME"]
          = Ok f
          /\ inclusion f = Some "automatic").
Proof.
  split; [exists "NAME"; split; [left |]; reflexivity |].
  split; [reflexivity |]. split; [reflexivity |].
  intros [f [Hf _]]. discriminate Hf.
Qed.

Lemma for_column_string_family_witness :
  exists f,
    _for_column (mkColumn "S" "T" "NAME" "VarChar" (Some 0) None None) [] = Ok f
    /\ type f = Some (TypeList ["null"; "string"])
    /\ maxLength f = None.
Proof.
  pose proof (for_column_string_family
                (mkColumn "S" "T" "NAME" "VarChar" (Some 0) None None) [])
    as Hw.
  simpl in Hw. destruct Hw as [f [Hf [Hty [_ [Hnone _]]]]].
  - right. left. reflexivity.
  - exists f. repeat split; [exact Hf | exact Hty | apply Hnone; lia].
Defined.

(** C7 as stated fails when the optional length is absent: a varchar column
    with [character_maximum_length = None] yields no fragment at all. *)
Lemma for_column_string_none_length_raises :
  let col := mkColumn "S" "T" "NAME" "varchar" None None None in
  In (lower (data_type col)) STRING_TYPES
  /\ character_maximum_length col = None
  /\ _for_column col [] = Raise TypeError
  /\ ~ (exists f, _for_column col [] = Ok f
                  /\ type f = Some (TypeList ["null"; "string"])).
Proof.
  simpl. repeat split.
  - right. left. reflexivity.
  - intros [f [Hf _]]. discriminate Hf.
Qed.

End SchemasSpec.

(* ===================================================================== *)
(** * Properties of the entry assembler                                    *)
(* ===================================================================== *)

Module AssemblerSpec.
Import Discovery.

(** The human-readable hint of a table type code, as the spec lists it. *)
Definition hint_of_table_type (table_type : string) : string :=
  if (table_type =? "A")%string then "Alias"
  else if (table_type =? "L")%string then "Logical file"
  else if (table_type =? "M")%string then "Materialized query table"
  else if (table_type =? "P")%string then "Physical file"
  else "Unknown".

Lemma known_types_hint (table_type : string) :
  dict_get_default known_types table_type "Unknown"
  = hint_of_table_type table_type.
Proof.
  unfold dict_get_default, known_types, hint_of_table_type.
  cbn [dict_get keyb EqKey_string].
  rewrite !(String.eqb_sym _ table_type).
  repeat match goal with
         | |- context [(table_type =? ?x)%string] =>
             destruct (table_type =? x)%string; [reflexivity |]
         end.
  reflexivity.
Qed.

Lemma str_in_T_V (table_type : string) :
  str_in table_type ["T"; "V"] = true
  <-> table_type = "T" \/ table_type = "V".
Proof.
  rewrite SchemasSpec.str_in_spec. simpl. intuition congruence.
Qed.

(** C9: [is_view] is set to true exactly for table type "V"; for "T" and
    "V" the schema (its inclusion and description included) is untouched;
    for any other code the schema's inclusion becomes "unsupported" and its
    description the non-empty text
    "Unsupported table type <code> (<hint>)", the hint being "Unknown" for
    a code outside A, L, M, P. *)
Theorem update_entry_for_table_type_policy (entry : CatalogEntry)
  (s : Schema) (table_type : string) :
  schema entry = Some s ->
  exists entry',
    _update_entry_for_table_type entry table_type = Ok entry'
    /\ (is_view entry' = Some true <-> table_type = "V")
    /\ (is_view entry' = Some false <-> table_type <> "V")
    /\ (table_type = "T" \/ table_type = "V" -> schema entry' = Some s)
    /\ (table_type <> "T" -> table_type <> "V" ->
        exists s' descr,
          schema entry' = Some s'
          /\ inclusion s' = Some "unsupported"
          /\ description s' = Some descr
          /\ descr = "Unsupported table type " ++ table_type ++ " ("
                     ++ hint_of_table_type table_type ++ ")"
          /\ descr <> "").
Proof.
  intros Hs. unfold _update_entry_for_table_type. cbv zeta.
  pose proof (str_in_T_V table_type) as HTV.
  assert (Hview : forall b, Some (table_type =? "V")%string = Some b
                            <-> (table_type =? "V")%string = b).
  { intros b. split; congruence. }
  destruct (str_in table_type ["T"; "V"]) eqn:E; simpl.
  - assert (HT : table_type = "T" \/ table_type = "V") by now apply HTV.
    eexists. split; [reflexivity |]. simpl.
    rewrite !Hview, String.eqb_eq, String.eqb_neq.
    split; [tauto |]. split; [tauto |]. split; [intros _; exact Hs |].
    intros Hn1 Hn2. exfalso. tauto.
  - assert (HT : ~ (table_type = "T" \/ table_type = "V")).
    { intros Hor. apply HTV in Hor. discriminate. }
    rewrite Hs. eexists. split; [reflexivity |]. simpl.
    rewrite !Hview, String.eqb_eq, String.eqb_neq.
    split; [tauto |]. split; [tauto |]. split; [tauto |].
    intros _ _. do 2 eexists. split; [reflexivity |]. simpl.
    split; [reflexivity |]. split; [reflexivity |]. split.
    + rewrite known_types_hint. reflexivity.
    + discriminate.
Qed.

Lemma update_entry_for_table_type_policy_witness :
  exists entry',
    _update_entry_for_table_type
      (mkCatalogEntry (Some "S") (Some "T") (Some "T") None (Some "S-T")
         (Some (Schema_new (Some (TypeName "object")) None None)) None None)
      "L"
    = Ok entry'
    /\ is_view entry' = Some false
    /\ exists s',
        schema entry' = Some s'
        /\ inclusion s' = Some "unsupported"
        /\ description s' = Some "Unsupported table type L (Logical file)".
Proof.
  destruct (update_entry_for_table_type_policy
              (mkCatalogEntry (Some "S") (Some "T") (Some "T") None
                 (Some "S-T")
                 (Some (Schema_new (Some (TypeName "object")) None None))
                 None None)
              (Schema_new (Some (TypeName "object")) None None) "L" eq_refl)
    as [entry' [He [_ [Hview [_ Hother]]]]].
  exists entry'. split; [exact He |]. split.
  - apply Hview. discriminate.
  - destruct Hother as [s' [descr [Hs' [Hincl [Hd [Heq _]]]]]];
      try discriminate.
    exists s'. repeat split; try assumption. rewrite Hd, Heq. reflexivity.
Defined.
Section Metadata.
Context `{StrLower}.

Lemma Column_getattr_data_type (col : Column) :
  Column_getattr col "data_type" = Ok (VStr (data_type col)).
Proof. reflexivity. Qed.

Lemma Column_getattr_column_type (col : Column) :
  Column_getattr col "column_type" = Raise AttributeError.
Proof. reflexivity. Qed.

Lemma create_column_metadata_step_raises (schema : Schema)
  (mdata : compiled_metadata) (col : Column) :
  exists e, _create_column_metadata_step schema mdata col = Raise e.
Proof.
  unfold _create_column_metadata_step.
  destruct (properties schema) as [props |]; simpl; [| now eexists].
  unfold dict_lookup.
  destruct (dict_get props (column_name col)); simpl; now eexists.
Qed.

(** C2 fails on the code: [_create_column_metadata] reads [col.column_type],
    an attribute the [Column] namedtuple does not declare (the native type
    is [data_type]), so every non-empty column list raises before any
    metadata is returned; with the column present in the schema the
    exception is [AttributeError]. *)
Theorem create_column_metadata_raises (col : Column) (cols : list Column)
  (schema : Schema) :
  (exists e, _create_column_metadata (col :: cols) schema = Raise e)
  /\ (forall props f,
        properties schema = Some props ->
        dict_get props (column_name col) = Some f ->
        _create_column_metadata (col :: cols) schema = Raise AttributeError).
Proof.
  split.
  - unfold _create_column_metadata. cbv zeta. simpl foldM.
    destruct (create_column_metadata_step_raises schema
                (write [] [] "selected-by-default" (MdBool false)) col)
      as [e He].
    rewrite He. simpl. now eexists.
  - intros props f Hp Hf.
    unfold _create_column_metadata. cbv zeta. simpl foldM.
    unfold _create_column_metadata_step, dict_lookup.
    rewrite Hp. simpl. rewrite Hf. reflexivity.
Qed.

End Metadata.

(** ** Examples, run with [ascii_lower] *)

#[local] Existing Instance ascii_StrLower.

(** Without columns only the table-level default is written. *)
Example create_column_metadata_no_columns (schema : Schema) :
  _create_column_metadata [] schema
  = Ok [mkMetadataItem [] [("selected-by-default", MdBool false)]].
Proof. reflexivity. Qed.

(** Scenario 1 of the spec, end to end: a table [S.T] of type "T" with the
    smallint primary-key column [ID]. *)
Definition scenario1 : Config :=
  mkConfig [("S", "T", "T")]
    [("S", "T", "ID", "smallint", None, None, None)]
    [("S", "T", "ID", 1)].

Example discover_scenario1_raises :
  discover scenario1 = Raise AttributeError.
Proof. reflexivity. Qed.

End AssemblerSpec.

(* ===================================================================== *)
(** * Facts about [sorted] and dictionaries                                *)
(* ===================================================================== *)

Module PyFacts.

(** The order of [(ordinal_position, column_name)] tuples: by ordinal
    position first, by column name on equal positions. *)
Definition pk_le (a b : Z * string) : Prop :=
  fst a < fst b \/ (fst a = fst b /\ (snd a <=? snd b)%string = true).

Lemma ascii_compare_lt_trans (a b c : ascii) :
  Ascii.compare a b = Lt -> Ascii.compare b c = Lt -> Ascii.compare a c = Lt.
Proof.
  unfold Ascii.compare. rewrite !N.compare_lt_iff. apply N.lt_trans.
Qed.

Lemma string_compare_lt_trans (s1 : string) :
  forall s2 s3,
    String.compare s1 s2 = Lt -> String.compare s2 s3 = Lt ->
    String.compare s1 s3 = Lt.
Proof.
  induction s1 as [| c1 s1 IH]; intros [| c2 s2] [| c3 s3]; simpl;
    try discriminate; try reflexivity.
  destruct (Ascii.compare c1 c2) eqn:E12; try discriminate;
    destruct (Ascii.compare c2 c3) eqn:E23; try discriminate; intros H12 H23.
  - apply Ascii.compare_eq_iff in E12, E23. subst.
    replace (Ascii.compare c3 c3) with Eq
      by (symmetry; unfold Ascii.compare; apply N.compare_refl).
    now apply IH with s2.
  - apply Ascii.compare_eq_iff in E12. subst. now rewrite E23.
  - apply Ascii.compare_eq_iff in E23. subst. now rewrite E12.
  - now rewrite (ascii_compare_lt_trans _ _ _ E12 E23).
Qed.

Lemma string_compare_refl (s : string) : String.compare s s = Eq.
Proof.
  induction s as [| c s IH]; simpl; [reflexivity |].
  unfold Ascii.compare. now rewrite N.compare_refl.
Qed.

Lemma string_leb_iff (s1 s2 : string) :
  (s1 <=? s2)%string = true <-> String.compare s1 s2 = Lt \/ s1 = s2.
Proof.
  unfold String.leb. destruct (String.compare s1 s2) eqn:E.
  - apply String.compare_eq_iff in E. tauto.
  - tauto.
  - split; [discriminate |]. intros [? | ->]; [discriminate |].
    rewrite string_compare_refl in E. discriminate.
Qed.

Lemma string_leb_trans (s1 s2 s3 : string) :
  (s1 <=? s2)%string = true -> (s2 <=? s3)%string = true ->
  (s1 <=? s3)%string = true.
Proof.
  rewrite !string_leb_iff. intros [H12 | ->] [H23 | ->]; auto.
  left. now apply string_compare_lt_trans with s2.
Qed.

Lemma string_ltb_false_iff (s1 s2 : string) :
  (s1 <? s2)%string = false <-> (s2 <=? s1)%string = true.
Proof.
  unfold String.ltb, String.leb. rewrite (String.compare_antisym s1 s2).
  destruct (String.compare s2 s1); simpl; split; congruence.
Qed.

Lemma string_ltb_leb (s1 s2 : string) :
  (s1 <? s2)%string = true -> (s1 <=? s2)%string = true.
Proof.
  unfold String.ltb, String.leb.
  destruct (String.compare s1 s2); congruence.
Qed.

Lemma tuple_ltb_false (a b : Z * string) : tuple_ltb b a = false -> pk_le a b.
Proof.
  unfold tuple_ltb, pk_le. destruct (Z.eqb_spec (fst b) (fst a)) as [E | E].
  - rewrite string_ltb_false_iff. intros Hle. right. split; congruence.
  - intros Hlt. apply Z.ltb_ge in Hlt. left. lia.
Qed.

Lemma tuple_ltb_true (a b : Z * string) : tuple_ltb a b = true -> pk_le a b.
Proof.
  unfold tuple_ltb, pk_le. destruct (Z.eqb_spec (fst a) (fst b)) as [E | E].
  - intros Hlt. right. split; [assumption | now apply string_ltb_leb].
  - intros Hlt. apply Z.ltb_lt in Hlt. now left.
Qed.

Lemma pk_le_trans (a b c : Z * string) : pk_le a b -> pk_le b c -> pk_le a c.
Proof.
  unfold pk_le. intros [Hab | [Eab Hab]] [Hbc | [Ebc Hbc]];
    try (left; lia).
  right. split; [congruence |]. now apply string_leb_trans with (snd b).
Qed.

Lemma pk_le_antisym (a b : Z * string) : pk_le a b -> pk_le b a -> a = b.
Proof.
  unfold pk_le. destruct a as [x s], b as [y t]; simpl.
  intros [Hab | [Eab Hab]] [Hba | [Eba Hba]]; try lia.
  subst. f_equal. now apply String.leb_antisym.
Qed.

Lemma pk_le_fst (a b : Z * string) : pk_le a b -> fst a <= fst b.
Proof. unfold pk_le. lia. Qed.

(** ** [sorted] returns the sorted permutation of its argument *)

Lemma insert_perm (x : Z * string) (l : list (Z * string)) :
  Permutation (insert x l) (x :: l).
Proof.
  induction l as [| y l IH]; simpl; [reflexivity |].
  destruct (tuple_ltb y x); [| reflexivity].
  rewrite IH. apply perm_swap.
Qed.

Lemma sorted_perm (l : list (Z * string)) : Permutation (sorted l) l.
Proof.
  induction l as [| x l IH]; simpl; [reflexivity |].
  rewrite insert_perm. now constructor.
Qed.

Lemma insert_sorted (x : Z * string) (l : list (Z * string)) :
  StronglySorted pk_le l -> StronglySorted pk_le (insert x l).
Proof.
  induction l as [| y l IH]; simpl; intros Hs.
  - repeat constructor.
  - apply StronglySorted_inv in Hs. destruct Hs as [Hl Hy].
    destruct (tuple_ltb y x) eqn:E.
    + constructor; [now apply IH |].
      rewrite (insert_perm x l). constructor; [| assumption].
      now apply tuple_ltb_true.
    + apply tuple_ltb_false in E.
      constructor; [now constructor |]. constructor; [assumption |].
      revert Hy. apply Forall_impl. intros z. now apply pk_le_trans.
Qed.

Lemma sorted_sorted (l : list (Z * string)) : StronglySorted pk_le (sorted l).
Proof.
  induction l as [| x l IH]; simpl; [constructor | now apply insert_sorted].
Qed.

Lemma sorted_nil_iff (l : list (Z * string)) : sorted l = [] <-> l = [].
Proof.
  split; [| now intros ->].
  intros Hs. apply Permutation_nil. rewrite <- Hs.
  apply sorted_perm.
Qed.

(** Two sorted lists with the same elements are equal. *)
Lemma pk_sorted_unique (l : list (Z * string)) :
  forall l',
    StronglySorted pk_le l -> StronglySorted pk_le l' -> Permutation l l' ->
    l = l'.
Proof.
  induction l as [| a l IH]; intros l' Hs Hs' Hp.
  - symmetry. now apply Permutation_nil.
  - destruct l' as [| b l'].
    { symmetry in Hp. apply Permutation_nil in Hp. discriminate. }
    apply StronglySorted_inv in Hs. destruct Hs as [Hl Ha].
    apply StronglySorted_inv in Hs'. destruct Hs' as [Hl' Hb].
    assert (Hab : a = b).
    { assert (Hin_b : In b (a :: l)).
      { apply Permutation_in with (b :: l'); [now symmetry | now left]. }
      assert (Hin_a : In a (b :: l')).
      { apply Permutation_in with (a :: l); [assumption | now left]. }
      destruct Hin_b as [-> | Hin_b]; [reflexivity |].
      destruct Hin_a as [-> | Hin_a]; [reflexivity |].
      rewrite Forall_forall in Ha, Hb.
      apply pk_le_antisym; auto. }
    subst b. f_equal. apply IH; try assumption.
    now apply Permutation_cons_inv with a.
Qed.

Lemma sorted_permutation_invariant (l l' : list (Z * string)) :
  Permutation l l' -> sorted l = sorted l'.
Proof.
  intros Hp. apply pk_sorted_unique; try apply sorted_sorted.
  rewrite !sorted_perm. assumption.
Qed.

(** In a sorted list, equal ordinal positions are ordered by name. *)
Lemma pk_sorted_ties (l : list (Z * string)) :
  StronglySorted pk_le l ->
  forall i j a b,
    (i < j)%nat -> nth_error l i = Some a -> nth_error l j = Some b ->
    fst a <= fst b
    /\ (fst a = fst b -> (snd a <=? snd b)%string = true).
Proof.
  induction l as [| x l IH]; intros Hs i j a b Hij Hi Hj.
  - destruct i; discriminate.
  - apply StronglySorted_inv in Hs. destruct Hs as [Hl Hx].
    destruct j as [| j]; [lia |]. simpl in Hj.
    destruct i as [| i]; simpl in Hi.
    + injection Hi as ->. apply nth_error_In in Hj.
      rewrite Forall_forall in Hx. specialize (Hx b Hj).
      split; [now apply pk_le_fst |].
      intros Heq. destruct Hx as [Hlt | [_ Hle]]; [lia | assumption].
    + apply (IH Hl i j); [lia | assumption | assumption].
Qed.

(** ** Dictionaries *)

Section DictFacts.
Context {K V : Type} `{EqKey K}.

Lemma keyb_refl (k : K) : keyb k k = true.
Proof. now apply keyb_spec. Qed.

Lemma keyb_neq (a b : K) : a <> b -> keyb a b = false.
Proof.
  intros Hn. destruct (keyb a b) eqn:E; [| reflexivity].
  apply keyb_spec in E. contradiction.
Qed.

Lemma keyb_dec (a b : K) : {a = b} + {a <> b}.
Proof.
  destruct (keyb a b) eqn:E.
  - left. now apply keyb_spec.
  - right. intros ->. rewrite keyb_refl in E. discriminate.
Qed.

Lemma dict_get_set_same (d : dict K V) (k : K) (v : V) :
  dict_get (dict_set d k v) k = Some v.
Proof.
  induction d as [| [k' v'] d IH]; simpl.
  - now rewrite keyb_refl.
  - destruct (keyb k' k) eqn:E; simpl; rewrite E; [reflexivity | exact IH].
Qed.

Lemma dict_get_set_other (d : dict K V) (k k' : K) (v : V) :
  k <> k' -> dict_get (dict_set d k v) k' = dict_get d k'.
Proof.
  intros Hn. induction d as [| [k0 v0] d IH]; simpl.
  - now rewrite keyb_neq.
  - destruct (keyb k0 k) eqn:E; simpl.
    + apply keyb_spec in E. subst k0. now rewrite !keyb_neq by assumption.
    + now rewrite IH.
Qed.

Lemma dict_get_not_in (d : dict K V) (k : K) :
  ~ In k (map fst d) -> dict_get d k = None.
Proof.
  induction d as [| [k' v'] d IH]; simpl; [reflexivity |].
  intros Hn. rewrite keyb_neq by tauto. apply IH. tauto.
Qed.

Lemma dict_set_fresh (d : dict K V) (k : K) (v : V) :
  ~ In k (map fst d) -> dict_set d k v = (d ++ [(k, v)])%list.
Proof.
  induction d as [| [k' v'] d IH]; simpl; [reflexivity |].
  intros Hn. rewrite keyb_neq by tauto. rewrite IH by tauto. reflexivity.
Qed.

Lemma dict_set_keys (d : dict K V) (k : K) (v : V) :
  map fst (dict_set d k v)
  = if dict_mem d k then map fst d else (map fst d ++ [k])%list.
Proof.
  unfold dict_mem. induction d as [| [k' v'] d IH]; simpl; [reflexivity |].
  destruct (keyb k' k) eqn:E; simpl; [reflexivity |].
  rewrite IH. now destruct (dict_get d k).
Qed.

Lemma dict_mem_in (d : dict K V) (k : K) :
  dict_mem d k = true <-> In k (map fst d).
Proof.
  unfold dict_mem. induction d as [| [k' v'] d IH]; simpl.
  - split; [discriminate | tauto].
  - destruct (keyb k' k) eqn:E.
    + apply keyb_spec in E. tauto.
    + rewrite IH. split; [tauto |]. intros [-> | Hin]; [| assumption].
      rewrite keyb_refl in E. discriminate.
Qed.

Lemma dict_set_nodup (d : dict K V) (k : K) (v : V) :
  NoDup (map fst d) -> NoDup (map fst (dict_set d k v)).
Proof.
  intros Hnd. rewrite dict_set_keys. destruct (dict_mem d k) eqn:E.
  - assumption.
  - apply NoDup_app; [assumption | repeat constructor; tauto |].
    intros x Hx [<- | []]. apply dict_mem_in in Hx. congruence.
Qed.

Lemma fold_dict_set_fresh (items : list (K * V)) :
  forall d,
    NoDup (map fst d ++ map fst items) ->
    fold_left (fun d kv => dict_set d (fst kv) (snd kv)) items d
    = (d ++ items)%list.
Proof.
  induction items as [| [k v] items IH]; intros d Hnd; simpl.
  - now rewrite app_nil_r.
  - simpl in Hnd. rewrite dict_set_fresh.
    + rewrite IH; [now rewrite <- app_assoc |].
      rewrite map_app, <- app_assoc. exact Hnd.
    + apply NoDup_remove_2 in Hnd. intros Hin. apply Hnd.
      apply in_or_app. now left.
Qed.

(** A comprehension over pairwise distinct keys lists its items as they
    come. *)
Lemma dict_of_items_nodup (items : list (K * V)) :
  NoDup (map fst items) -> dict_of_items items = items.
Proof. intros Hnd. unfold dict_of_items. now rewrite fold_dict_set_fresh. Qed.

End DictFacts.

Lemma dict_get_map_values {K V W : Type} `{EqKey K} (f : V -> W)
  (d : dict K V) (k : K) :
  dict_get (map (fun kv => (fst kv, f (snd kv))) d) k
  = option_map f (dict_get d k).
Proof.
  induction d as [| [k' v'] d IH]; simpl; [reflexivity |].
  destruct (keyb k' k); [reflexivity | exact IH].
Qed.

End PyFacts.

(* ===================================================================== *)
(** * Properties of the reconciler                                         *)
(* ===================================================================== *)

Module ReconcilerSpec.
Import Discovery PyFacts.

Definition pk_row_id (row : PrimaryKeyRow) : TableId :=
  let '(table_schema, table_name, _, _) := row in (table_schema, table_name).

Definition pk_row_pair (row : PrimaryKeyRow) : Z * string :=
  let '(_, _, column_name, ordinal_pos) := row in (ordinal_pos, column_name).

(** The [(ordinal_position, column_name)] pairs of the primary-key rows of
    table [k], in the order the query yields them. *)
Definition pk_rows_of (rows : list PrimaryKeyRow) (k : TableId)
  : list (Z * string) :=
  map pk_row_pair (filter (fun row => keyb (pk_row_id row) k) rows).

(** The same, with the rows of a table outside [tables] dropped. *)
Definition pk_pairs (tables : dict TableId Table) (rows : list PrimaryKeyRow)
  (k : TableId) : list (Z * string) :=
  if dict_mem tables k then pk_rows_of rows k else [].

(** The key list built from the collected pairs of one table. *)
Definition key_columns (v : list (Z * string)) : option (list string) :=
  match v with
  | [] => None
  | _ :: _ => Some (map snd (sorted v))
  end.

Lemma step_get (tables : dict TableId Table)
  (keys : dict TableId (list (Z * string))) (row : PrimaryKeyRow)
  (k : TableId) :
  dict_get (_find_primary_keys_step tables keys row) k
  = if (dict_mem tables (pk_row_id row) && keyb (pk_row_id row) k)%bool
    then Some (dict_get_default keys k [] ++ [pk_row_pair row])%list
    else dict_get keys k.
Proof.
  destruct row as [[[s n] c] o]. unfold _find_primary_keys_step.
  cbn [pk_row_id pk_row_pair].
  destruct (dict_mem tables (s, n)) eqn:Et; cbn [negb andb]; [| reflexivity].
  destruct (keyb_dec (s, n) k) as [<- | Hne].
  - rewrite keyb_refl, dict_get_set_same. do 2 f_equal.
    unfold dict_get_default, dict_mem.
    destruct (dict_get keys (s, n)) eqn:Eg; cbn [negb].
    + now rewrite Eg.
    + now rewrite dict_get_set_same.
  - rewrite (keyb_neq _ _ Hne), dict_get_set_other by assumption.
    destruct (dict_mem keys (s, n)); cbn [negb]; [reflexivity |].
    now apply dict_get_set_other.
Qed.

Lemma step_nodup (tables : dict TableId Table)
  (keys : dict TableId (list (Z * string))) (row : PrimaryKeyRow) :
  NoDup (map fst keys) ->
  NoDup (map fst (_find_primary_keys_step tables keys row)).
Proof.
  intros Hnd. destruct row as [[[s n] c] o]. unfold _find_primary_keys_step.
  destruct (dict_mem tables (s, n)); cbn [negb]; [| assumption].
  apply dict_set_nodup.
  destruct (dict_mem keys (s, n)); cbn [negb];
    [assumption | now apply dict_set_nodup].
Qed.

Lemma loop_nodup (tables : dict TableId Table) (rows : list PrimaryKeyRow) :
  forall keys,
    NoDup (map fst keys) ->
    NoDup (map fst (fold_left (_find_primary_keys_step tables) rows keys)).
Proof.
  induction rows as [| row rows IH]; intros keys Hnd; simpl;
    [assumption | now apply IH, step_nodup].
Qed.

Lemma pk_pairs_cons (tables : dict TableId Table) (row : PrimaryKeyRow)
  (rows : list PrimaryKeyRow) (k : TableId) :
  pk_pairs tables (row :: rows) k
  = if (dict_mem tables (pk_row_id row) && keyb (pk_row_id row) k)%bool
    then pk_row_pair row :: pk_pairs tables rows k
    else pk_pairs tables rows k.
Proof.
  unfold pk_pairs, pk_rows_of. cbn [filter].
  destruct (keyb_dec (pk_row_id row) k) as [<- | Hne].
  - rewrite keyb_refl, andb_true_r.
    now destruct (dict_mem tables (pk_row_id row)).
  - rewrite (keyb_neq _ _ Hne), andb_false_r. reflexivity.
Qed.

(** What the loop of [_find_primary_keys] leaves under key [k]. *)
Lemma loop_get (tables : dict TableId Table) (rows : list PrimaryKeyRow)
  (k : TableId) :
  forall keys,
    dict_get (fold_left (_find_primary_keys_step tables) rows keys) k
    = match dict_get keys k, pk_pairs tables rows k with
      | Some v, ps => Some (v ++ ps)%list
      | None, [] => None
      | None, ps => Some ps
      end.
Proof.
  induction rows as [| row rows IH]; intros keys.
  - simpl. unfold pk_pairs, pk_rows_of. simpl.
    destruct (dict_get keys k); [| now destruct (dict_mem tables k)].
    f_equal. destruct (dict_mem tables k); now rewrite app_nil_r.
  - simpl fold_left. rewrite IH, step_get, pk_pairs_cons.
    destruct (dict_mem tables (pk_row_id row) && keyb (pk_row_id row) k)%bool.
    + unfold dict_get_default. destruct (dict_get keys k).
      * now rewrite <- app_assoc.
      * reflexivity.
    + reflexivity.
Qed.

Lemma find_primary_keys_get (config : Config) (tables : dict TableId Table)
  (k : TableId) :
  dict_get (_find_primary_keys config tables) k
  = key_columns (pk_pairs tables (_query_primary_keys config) k).
Proof.
  unfold _find_primary_keys. cbv zeta.
  rewrite dict_of_items_nodup.
  - rewrite (dict_get_map_values (fun v => map snd (sorted v))), loop_get.
    simpl. now destruct (pk_pairs tables (_query_primary_keys config) k).
  - rewrite map_map. simpl. apply loop_nodup. constructor.
Qed.

Lemma StronglySorted_weaken {A : Type} (R S : A -> A -> Prop) (l : list A) :
  (forall a b, R a b -> S a b) -> StronglySorted R l -> StronglySorted S l.
Proof.
  intros HRS. induction 1 as [| a l Hs IH Ha]; constructor; [assumption |].
  revert Ha. apply Forall_impl. auto.
Qed.

Lemma Permutation_filter {A : Type} (f : A -> bool) (l l' : list A) :
  Permutation l l' -> Permutation (filter f l) (filter f l').
Proof.
  induction 1 as [| x l l' Hp IH | x y l | l l' l'' Hp1 IH1 Hp2 IH2]; simpl.
  - constructor.
  - destruct (f x); [now constructor | assumption].
  - destruct (f x), (f y); try reflexivity. apply perm_swap.
  - now transitivity (filter f l').
Qed.

Lemma key_columns_permutation (v v' : list (Z * string)) :
  Permutation v v' -> key_columns v = key_columns v'.
Proof.
  intros Hp. destruct v as [| a v], v' as [| a' v'].
  - reflexivity.
  - apply Permutation_nil in Hp. discriminate.
  - symmetry in Hp. apply Permutation_nil in Hp. discriminate.
  - unfold key_columns. now rewrite (sorted_permutation_invariant _ _ Hp).
Qed.

(** C8: rows of a table outside the table map are dropped; the remaining
    rows are grouped by table, and each table's key columns are its column
    names arranged by ascending ordinal position, the positions themselves
    gone from the result. *)
Theorem find_primary_keys_sorted_by_ordinal (config : Config)
  (tables : dict TableId Table) (k : TableId) :
  let rows := pk_rows_of (_query_primary_keys config) k in
  (dict_mem tables k = false ->
   dict_get (_find_primary_keys config tables) k = None)
  /\ (rows = [] -> dict_get (_find_primary_keys config tables) k = None)
  /\ (dict_mem tables k = true -> rows <> [] ->
      exists v,
        Permutation v rows
        /\ StronglySorted (fun a b => fst a <= fst b) v
        /\ dict_get (_find_primary_keys config tables) k = Some (map snd v)).
Proof.
  intros rows. rewrite find_primary_keys_get. unfold pk_pairs. fold rows.
  split; [intros ->; reflexivity |]. split.
  - intros ->. now destruct (dict_mem tables k).
  - intros -> Hne. exists (sorted rows). split; [apply sorted_perm |]. split.
    + apply StronglySorted_weaken with pk_le; [apply pk_le_fst |].
      apply sorted_sorted.
    + destruct rows; [contradiction | reflexivity].
Qed.

Definition pk_example : Config :=
  mkConfig [("S", "A", "T"); ("S", "B", "T")] []
    [("S", "A", "Z", 2); ("S", "B", "Y", 1); ("S", "A", "X", 1);
     ("S", "Q", "X", 1); ("S", "A", "W", 1)].

Example find_primary_keys_example :
  _find_primary_keys pk_example (_find_tables pk_example)
  = [(("S", "A"), ["W"; "X"; "Z"]); (("S", "B"), ["Y"])].
Proof. reflexivity. Qed.

Lemma find_primary_keys_sorted_by_ordinal_witness :
  exists v,
    Permutation v [(2, "Z"); (1, "X"); (1, "W")]
    /\ StronglySorted (fun a b => fst a <= fst b) v
    /\ dict_get (_find_primary_keys pk_example (_find_tables pk_example))
         ("S", "A")
       = Some (map snd v).
Proof.
  apply (find_primary_keys_sorted_by_ordinal pk_example
           (_find_tables pk_example) ("S", "A")).
  - reflexivity.
  - discriminate.
Defined.

(** C10: the key columns of a table come out in the order of their
    [(ordinal_position, column_name)] tuples, so rows that share an ordinal
    position are ordered by ascending column name; the result therefore
    depends only on which rows the query yields, not on their order. *)
Theorem find_primary_keys_ties_by_name (config : Config)
  (tables : dict TableId Table) (k : TableId) (names : list string) :
  dict_get (_find_primary_keys config tables) k = Some names ->
  (exists v,
     names = map snd v
     /\ Permutation v (pk_rows_of (_query_primary_keys config) k)
     /\ StronglySorted pk_le v
     /\ (forall i j a b,
           (i < j)%nat -> nth_error v i = Some a -> nth_error v j = Some b ->
           fst a = fst b -> (snd a <=? snd b)%string = true))
  /\ (forall config',
        Permutation (_query_primary_keys config')
          (_query_primary_keys config) ->
        dict_get (_find_primary_keys config' tables) k = Some names).
Proof.
  rewrite find_primary_keys_get. intros Hget. split.
  - unfold pk_pairs in Hget. destruct (dict_mem tables k); [| discriminate].
    destruct (pk_rows_of (_query_primary_keys config) k) as [| p ps] eqn:Erows;
      [discriminate |].
    injection Hget as <-. exists (sorted (p :: ps)).
    split; [reflexivity |]. split; [apply sorted_perm |].
    split; [apply sorted_sorted |].
    intros i j a b Hij Hi Hj.
    now apply (pk_sorted_ties _ (sorted_sorted (p :: ps)) i j a b).
  - intros config' Hp. rewrite find_primary_keys_get, <- Hget.
    apply key_columns_permutation. unfold pk_pairs, pk_rows_of.
    destruct (dict_mem tables k); [| reflexivity].
    now apply Permutation_map, Permutation_filter.
Qed.

Definition pk_ties : Config :=
  mkConfig [("S", "A", "T")] []
    [("S", "A", "ZIP", 1); ("S", "A", "CITY", 1); ("S", "A", "ID", 0)].

Lemma find_primary_keys_ties_by_name_witness :
  dict_get (_find_primary_keys pk_ties (_find_tables pk_ties)) ("S", "A")
  = Some ["ID"; "CITY"; "ZIP"]
  /\ dict_get
       (_find_primary_keys
          (mkConfig [("S", "A", "T")] []
             [("S", "A", "CITY", 1); ("S", "A", "ID", 0);
              ("S", "A", "ZIP", 1)])
          (_find_tables pk_ties)) ("S", "A")
     = Some ["ID"; "CITY"; "ZIP"].
Proof.
  split; [reflexivity |].
  apply (find_primary_keys_ties_by_name pk_ties (_find_tables pk_ties)
           ("S", "A") ["ID"; "CITY"; "ZIP"] eq_refl).
  simpl. apply perm_trans with
    [("S", "A", "CITY", 1); ("S", "A", "ZIP", 1); ("S", "A", "ID", 0)].
  - apply perm_skip, perm_swap.
  - apply perm_swap.
Defined.

End ReconcilerSpec.

(* ===================================================================== *)
(** * Properties of the grouping step of [discover]                        *)
(* ===================================================================== *)

Module GroupingSpec.
Import Discovery PyFacts.


(** The table an entry was built for. *)
Definition entry_table_id (e : CatalogEntry) : option string * option string :=
  (database e, table e).





Section Groupby.
Context {A : Type} (key : A -> TableId).






(** The groups partition the input in order. *)
Lemma groupby_concat (l : list A) :
  List.concat (map snd (groupby key l)) = l.
Proof.
  induction l as [| x l IH]; [reflexivity |]. cbn [groupby].
  destruct (groupby key l) as [| [k g] gs]; cbn [map snd List.concat app] in *;
    [now rewrite <- IH |].
  destruct (keyb (key x) k); cbn [map snd List.concat app]; now rewrite <- IH.
Qed.

End Groupby.

Lemma find_columns_known (config : Config) (tables : dict TableId Table)
  (c : Column) :
  In c (_find_columns config tables) -> dict_mem tables (_table_id c) = true.
Proof. unfold _find_columns. cbv zeta. intros Hin. now apply filter_In in Hin. Qed.





Lemma update_entry_keeps_table_id (entry entry' : CatalogEntry)
  (table_type : string) :
  _update_entry_for_table_type entry table_type = Ok entry' ->
  entry_table_id entry' = entry_table_id entry.
Proof.
  unfold _update_entry_for_table_type. cbv zeta.
  destruct (negb (str_in table_type ["T"; "V"])).
  - cbn [schema set_is_view]. destruct (schema entry); [| discriminate].
    intros Heq. injection Heq as <-. reflexivity.
  - intros Heq. injection Heq as <-. reflexivity.
Qed.

Section Discover.
Context `{StrLower}.


End Discover.

(** ** Examples, run with [ascii_lower] *)

#[local] Existing Instance ascii_StrLower.





End GroupingSpec.

(* ===================================================================== *)
(** * Further properties of the type mapper                                *)
(* ===================================================================== *)

Module MapperFacts.
Import Schemas SchemasSpec.

Lemma Ok_inj {A : Type} (a b : A) : Ok a = Ok b -> a = b.
Proof. intros Heq. now injection Heq. Qed.

Lemma Raise_inj {A : Type} (a b : exn) : @Raise A a = Raise b -> a = b.
Proof. intros Heq. now injection Heq. Qed.

Section Mapper.
Context `{StrLower}.

(** When the mapper raises on a decimal or numeric column, and what. *)
Lemma decimal_raises_iff (col : Column) (pk_columns : list string) (e : exn) :
  In (lower (data_type col)) DECIMAL_TYPES ->
  _for_column col pk_columns = Raise e
  <-> (e = TypeError
       /\ (numeric_scale col = None
           \/ exists s, numeric_scale col = Some s
                        /\ s < float_overflow_bound
                        /\ numeric_precision col = None))
      \/ (e = OverflowError
          /\ exists s, numeric_scale col = Some s
                       /\ (float_overflow_bound <= s
                           \/ exists p, numeric_precision col = Some p
                                        /\ float_overflow_bound <= s - p)).
Proof.
  intros Hty. pose proof float_overflow_bound_pos as Hpos.
  destruct (decimal_family_branch _ Hty) as (Hint & Hfloat & Hdec).
  unfold _for_column. rewrite Hint, Hfloat, Hdec. clear Hint Hfloat Hdec.
  destruct (numeric_scale col) as [s |]; cbn [py_eq_zero py_sub bind].
  2:{ split.
      - intros Heq. apply Raise_inj in Heq. subst e. left. tauto.
      - intros [[-> _] | [_ (s & Hs & _)]]; [reflexivity | discriminate Hs]. }
  assert (Hmul : s < float_overflow_bound -> s <> 0 ->
                 exists m, py_pow10 (0 - s) = Ok m).
  { intros Hs Hnz.
    destruct (py_pow10_cases (0 - s)) as [[_ ->] | [(_ & _ & ->) | [Hr _]]];
      [now eexists | now eexists | lia]. }
  destruct (Z.lt_ge_cases s float_overflow_bound) as [Hs | Hs].
  - (* the scale is in range: the outcome is decided by the bounds *)
    destruct (numeric_precision col) as [p |]; cbn [py_sub bind].
    + destruct (Z.lt_ge_cases (s - p) float_overflow_bound) as [Hps | Hps].
      * (* everything is computed: no exception *)
        assert (Hbound : exists m, py_pow10 (p - s) = Ok m).
        { destruct (py_pow10_cases (p - s))
            as [[_ ->] | [(_ & _ & ->) | [Hr _]]];
            [now eexists | now eexists | lia]. }
        destruct Hbound as [m Hm]. split.
        -- destruct (Z.eqb_spec s 0) as [Hz | Hnz].
           ++ rewrite Hm. discriminate.
           ++ destruct (Hmul Hs Hnz) as [m' ->]. cbn [bind]. rewrite Hm.
              discriminate.
        -- intros [[_ [Hn | (s' & Hs' & _ & Hp')]]
                  | [_ (s' & Hs' & [Hge | (p' & Hp' & Hge)])]];
             try discriminate; injection Hs' as <-; try lia.
           injection Hp' as <-. lia.
      * (* the exponent of the bounds overflows *)
        assert (Hov : py_pow10 (p - s) = Raise OverflowError)
          by (apply py_pow10_overflow; lia).
        split.
        -- intros Heq. right.
           assert (He : e = OverflowError).
           { destruct (Z.eqb_spec s 0) as [Hz | Hnz].
             - rewrite Hov in Heq. now apply Raise_inj in Heq.
             - destruct (Hmul Hs Hnz) as [m' Hm']. rewrite Hm' in Heq.
               cbn [bind] in Heq. rewrite Hov in Heq.
               now apply Raise_inj in Heq. }
           split; [exact He |]. exists s. split; [reflexivity |].
           right. exists p. now split.
        -- intros [[-> [Hn | (s' & Hs' & _ & Hp')]] | [-> _]];
             try discriminate.
           destruct (Z.eqb_spec s 0) as [Hz | Hnz].
           ++ now rewrite Hov.
           ++ destruct (Hmul Hs Hnz) as [m' ->]. cbn [bind]. now rewrite Hov.
    + (* no precision: the subtraction raises *)
      split.
      -- intros Heq. left.
         assert (He : e = TypeError).
         { destruct (Z.eqb_spec s 0) as [Hz | Hnz].
           - now apply Raise_inj in Heq.
           - destruct (Hmul Hs Hnz) as [m' Hm']. rewrite Hm' in Heq.
             now apply Raise_inj in Heq. }
         split; [exact He |]. right. exists s. now repeat split.
      -- intros [[-> _] | [-> (s' & Hs' & [Hge | (p' & Hp' & _)])]].
         ++ destruct (Z.eqb_spec s 0) as [Hz | Hnz]; [reflexivity |].
            now destruct (Hmul Hs Hnz) as [m' ->].
         ++ injection Hs' as <-. lia.
         ++ discriminate Hp'.
  - (* the scale itself is out of range *)
    assert (Hnz : s <> 0) by lia.
    assert (Hov : py_pow10 (0 - s) = Raise OverflowError)
      by (apply py_pow10_overflow; lia).
    destruct (Z.eqb_spec s 0) as [Hz | _]; [contradiction |].
    rewrite Hov. cbn [bind]. split.
    + intros Heq. apply Raise_inj in Heq. subst e. right.
      split; [reflexivity |]. exists s. split; [reflexivity | now left].
    + intros [[_ [Hn | (s' & Hs' & Hlt & _)]] | [-> _]];
        [discriminate Hn | injection Hs' as <-; lia | reflexivity].
Qed.


(** When the mapper raises on a char or varchar column. *)
Lemma string_raises_iff (col : Column) (pk_columns : list string) (e : exn) :
  In (lower (data_type col)) STRING_TYPES ->
  _for_column col pk_columns = Raise e
  <-> e = TypeError /\ character_maximum_length col = None.
Proof.
  intros Hty.
  destruct (string_family_branch _ Hty) as (Hint & Hfloat & Hdec & Hstr).
  unfold _for_column. rewrite Hint, Hfloat, Hdec, Hstr.
  destruct (character_maximum_length col) as [n |]; cbn [py_gt_zero bind].
  - destruct (0 <? n); split; try discriminate; intros [_ Hn]; discriminate.
  - split.
    + intros Heq. apply Raise_inj in Heq. now subst e.
    + intros [-> _]. reflexivity.
Qed.

(** Outside the decimal and string families the mapper returns. *)
Lemma other_families_return (col : Column) (pk_columns : list string) :
  str_in (lower (data_type col)) DECIMAL_TYPES = false ->
  str_in (lower (data_type col)) STRING_TYPES = false ->
  exists f, _for_column col pk_columns = Ok f.
Proof.
  intros Hdec Hstr. unfold _for_column.
  destruct (dict_get BYTES_FOR_INTEGER_TYPE (lower (data_type col)));
    [now eexists |].
  destruct (str_in (lower (data_type col)) FLOAT_TYPES); [now eexists |].
  rewrite Hdec, Hstr.
  destruct (str_in (lower (data_type col)) DATETIME_TYPES); now eexists.
Qed.

Lemma for_column_raises_kinds (col : Column) (pk_columns : list string)
  (e : exn) :
  _for_column col pk_columns = Raise e ->
  e = TypeError \/ e = OverflowError.
Proof.
  intros Hr.
  destruct (str_in (lower (data_type col)) DECIMAL_TYPES) eqn:Edec.
  - apply str_in_spec in Edec. apply (decimal_raises_iff _ _ _ Edec) in Hr.
    destruct Hr as [[-> _] | [-> _]]; [now left | now right].
  - destruct (str_in (lower (data_type col)) STRING_TYPES) eqn:Estr.
    + apply str_in_spec in Estr. apply (string_raises_iff _ _ _ Estr) in Hr.
      left. tauto.
    + destruct (other_families_return col pk_columns Edec Estr) as [f Hf].
      rewrite Hf in Hr. discriminate Hr.
Qed.

(** X1: the mapper raises [TypeError] exactly when it computes with an
    attribute that is [None] -- the scale of a decimal or numeric column,
    its precision when the scale is in range, or the length of a char or
    varchar column -- and [OverflowError] exactly when the scale of a
    decimal column, or its scale minus its precision, reaches the bound at
    which the negative exponent no longer converts to a float.  It raises
    nothing else, and returns a fragment for every other column. *)
Theorem for_column_raises_iff (col : Column) (pk_columns : list string)
  (e : exn) :
  _for_column col pk_columns = Raise e
  <-> (e = TypeError
       /\ ((In (lower (data_type col)) DECIMAL_TYPES
            /\ (numeric_scale col = None
                \/ exists s, numeric_scale col = Some s
                             /\ s < float_overflow_bound
                             /\ numeric_precision col = None))
           \/ (In (lower (data_type col)) STRING_TYPES
               /\ character_maximum_length col = None)))
      \/ (e = OverflowError
          /\ In (lower (data_type col)) DECIMAL_TYPES
          /\ exists s, numeric_scale col = Some s
                       /\ (float_overflow_bound <= s
                           \/ exists p, numeric_precision col = Some p
                                        /\ float_overflow_bound <= s - p)).
Proof.
  destruct (str_in (lower (data_type col)) DECIMAL_TYPES) eqn:Edec.
  - (* a decimal: not a string *)
    assert (Hdec : In (lower (data_type col)) DECIMAL_TYPES)
      by now apply str_in_spec.
    assert (Hnstr : ~ In (lower (data_type col)) STRING_TYPES).
    { intros Hstr. apply string_family_branch in Hstr.
      destruct Hstr as (_ & _ & Hd & _). congruence. }
    rewrite (decimal_raises_iff _ _ _ Hdec). tauto.
  - assert (Hndec : ~ In (lower (data_type col)) DECIMAL_TYPES).
    { intros Hdec. apply str_in_spec in Hdec. congruence. }
    destruct (str_in (lower (data_type col)) STRING_TYPES) eqn:Estr.
    + assert (Hstr : In (lower (data_type col)) STRING_TYPES)
        by now apply str_in_spec.
      rewrite (string_raises_iff _ _ _ Hstr). tauto.
    + assert (Hnstr : ~ In (lower (data_type col)) STRING_TYPES).
      { intros Hstr. apply str_in_spec in Hstr. congruence. }
      destruct (other_families_return col pk_columns Edec Estr) as [f Hf].
      rewrite Hf. split; [discriminate | tauto].
Qed.

(** X2: a float or decfloat column maps to a nullable number, a date,
    timestmp or time column to a nullable string of format "date-time";
    neither carries bounds, a length or a description. *)
Theorem for_column_float_and_temporal (col : Column)
  (pk_columns : list string) :
  (In (lower (data_type col)) FLOAT_TYPES ->
   exists incl,
     _for_column col pk_columns
     = Ok (mkSchema (Some (TypeList ["null"; "number"])) None (Some incl)
             None None None None None None None None))
  /\ (In (lower (data_type col)) DATETIME_TYPES ->
      exists incl,
        _for_column col pk_columns
        = Ok (mkSchema (Some (TypeList ["null"; "string"])) None (Some incl)
                None None None None None None None (Some "date-time"))).
Proof.
  split; intros Hty; unfold _for_column.
  - destruct Hty as [<- | [<- | []]]; eexists; reflexivity.
  - destruct Hty as [<- | [<- | [<- | []]]]; eexists; reflexivity.
Qed.

(** Closes the statements about the attributes of the fragment [f] that the
    equation [Heq] gives. *)
Ltac presence_cases Heq f :=
  try discriminate Heq; apply Ok_inj in Heq; subst f; cbn;
  repeat split; try discriminate; try congruence; try tauto;
  try (intros m Hm; discriminate Hm);
  try (intros m Hm; injection Hm as <-; repeat split; tauto);
  try (intros [? | ?]; congruence).

(** X3: which attributes a returned fragment can carry: a type exactly when
    the native type is recognized; [maxLength] only on a string column,
    equal to its positive length; [format] only on a temporal column;
    [multipleOf] only on a decimal column with a non-zero scale; exclusive
    bounds only on a decimal column; a description only on an unrecognized
    type; and never any properties. *)
Theorem for_column_field_presence (col : Column) (pk_columns : list string)
  (f : Schema) :
  _for_column col pk_columns = Ok f ->
  (type f = None <-> recognized (lower (data_type col)) = false)
  /\ (forall m, maxLength f = Some m ->
        In (lower (data_type col)) STRING_TYPES
        /\ 0 < m /\ character_maximum_length col = Some m)
  /\ (format f <> None ->
      In (lower (data_type col)) DATETIME_TYPES
      /\ format f = Some "date-time")
  /\ (multipleOf f <> None ->
      In (lower (data_type col)) DECIMAL_TYPES
      /\ numeric_scale col <> Some 0)
  /\ (exclusiveMaximum f <> None \/ exclusiveMinimum f <> None ->
      In (lower (data_type col)) DECIMAL_TYPES)
  /\ (description f <> None -> recognized (lower (data_type col)) = false)
  /\ properties f = None.
Proof.
  unfold recognized, dict_mem, _for_column, py_eq_zero.
  pose proof (str_in_spec (lower (data_type col)) DECIMAL_TYPES) as Hdec.
  pose proof (str_in_spec (lower (data_type col)) STRING_TYPES) as Hstr.
  pose proof (str_in_spec (lower (data_type col)) DATETIME_TYPES) as Hdt.
  set (is_decimal := In (lower (data_type col)) DECIMAL_TYPES) in *.
  set (is_string := In (lower (data_type col)) STRING_TYPES) in *.
  set (is_temporal := In (lower (data_type col)) DATETIME_TYPES) in *.
  destruct (dict_get BYTES_FOR_INTEGER_TYPE (lower (data_type col)));
    [intros Heq; presence_cases Heq f |].
  destruct (str_in (lower (data_type col)) FLOAT_TYPES);
    [intros Heq; presence_cases Heq f |].
  destruct (str_in (lower (data_type col)) DECIMAL_TYPES).
  { destruct (numeric_scale col) as [s |];
      [| intros Heq; discriminate Heq].
    destruct (numeric_precision col) as [p |]; cbn [py_sub bind].
    - destruct (py_pow10_cases (p - s))
        as [[_ Hb] | [(_ & _ & Hb) | [_ Hb]]]; rewrite !Hb;
        (destruct (Z.eqb_spec s 0);
         [| destruct (py_pow10_cases (0 - s))
              as [[_ Hm] | [(_ & _ & Hm) | [_ Hm]]]; rewrite Hm]);
        cbn [bind]; intros Heq; presence_cases Heq f.
    - destruct (Z.eqb_spec s 0);
        [| destruct (py_pow10 (0 - s))]; cbn [bind];
        intros Heq; discriminate Heq. }
  destruct (str_in (lower (data_type col)) STRING_TYPES).
  { destruct (character_maximum_length col) as [n |];
      cbn [py_gt_zero bind]; [| intros Heq; discriminate Heq].
    destruct (Z.ltb_spec 0 n); intros Heq; presence_cases Heq f. }
  destruct (str_in (lower (data_type col)) DATETIME_TYPES);
    intros Heq; presence_cases Heq f.
Qed.

End Mapper.

(** ** Examples, run with [ascii_lower] *)

#[local] Existing Instance ascii_StrLower.

Lemma for_column_float_and_temporal_witness :
  (exists incl,
     _for_column (mkColumn "S" "T" "RATE" "DECFLOAT" None (Some 16) None) []
     = Ok (mkSchema (Some (TypeList ["null"; "number"])) None (Some incl)
             None None None None None None None None))
  /\ (exists incl,
        _for_column (mkColumn "S" "T" "DAY" "Date" None None None) ["day"]
        = Ok (mkSchema (Some (TypeList ["null"; "string"])) None
                (Some incl) None None None None None None None
                (Some "date-time"))).
Proof.
  split.
  - apply (for_column_float_and_temporal
             (mkColumn "S" "T" "RATE" "DECFLOAT" None (Some 16) None) []).
    right. left. reflexivity.
  - apply (for_column_float_and_temporal
             (mkColumn "S" "T" "DAY" "Date" None None None) ["day"]).
    left. reflexivity.
Defined.

Lemma for_column_field_presence_witness :
  exists f,
    _for_column (mkColumn "S" "T" "NAME" "varchar" (Some 12) None None) []
    = Ok f
    /\ (forall m, maxLength f = Some m -> 0 < m)
    /\ properties f = None.
Proof.
  destruct (_for_column
              (mkColumn "S" "T" "NAME" "varchar" (Some 12) None None) [])
    as [f |] eqn:Hf; [| vm_compute in Hf; discriminate Hf].
  exists f. split; [reflexivity |].
  destruct (for_column_field_presence
              (mkColumn "S" "T" "NAME" "varchar" (Some 12) None None) []
              f Hf) as (_ & Hlen & _ & _ & _ & _ & Hprops).
  split; [| exact Hprops].
  intros m Hm. destruct (Hlen m Hm) as (_ & Hpos & _). exact Hpos.
Defined.

End MapperFacts.

(* ===================================================================== *)
(** * Dictionary comprehensions and loops that may raise                   *)
(* ===================================================================== *)

Module ComprehensionFacts.
Import PyFacts.

Section Comprehension.
Context {K V : Type} `{EqKey K}.

Lemma dict_get_app (a b : dict K V) (k : K) :
  dict_get (a ++ b)%list k
  = match dict_get a k with
    | Some v => Some v
    | None => dict_get b k
    end.
Proof.
  induction a as [| [k' v'] a IH]; simpl; [reflexivity |].
  now destruct (keyb k' k).
Qed.

Lemma dict_get_in (d : dict K V) (k : K) (v : V) :
  dict_get d k = Some v -> In (k, v) d.
Proof.
  induction d as [| [k' v'] d IH]; simpl; [discriminate |].
  destruct (keyb k' k) eqn:E.
  - apply keyb_spec in E. intros Heq. injection Heq as <-. subst. now left.
  - intros Hg. right. now apply IH.
Qed.

(** After the comprehension's assignments, the value under [k] is that of
    the last item with key [k], or the earlier value when there is none. *)
Lemma fold_dict_set_get (items : list (K * V)) (k : K) :
  forall d,
    dict_get (fold_left (fun d kv => dict_set d (fst kv) (snd kv)) items d) k
    = match dict_get (rev items) k with
      | Some v => Some v
      | None => dict_get d k
      end.
Proof.
  induction items as [| [k0 v0] items IH]; intros d; [reflexivity |].
  cbn [fold_left rev fst snd]. rewrite IH, dict_get_app.
  destruct (dict_get (rev items) k); [reflexivity |].
  cbn [dict_get]. destruct (keyb_dec k0 k) as [-> | Hne].
  - now rewrite keyb_refl, dict_get_set_same.
  - now rewrite (keyb_neq _ _ Hne), dict_get_set_other.
Qed.

Lemma dict_of_items_get (items : list (K * V)) (k : K) :
  dict_get (dict_of_items items) k = dict_get (rev items) k.
Proof.
  unfold dict_of_items. rewrite fold_dict_set_get.
  now destruct (dict_get (rev items) k).
Qed.

Lemma dict_of_items_last (before after : list (K * V)) (k : K) (v : V) :
  ~ In k (map fst after) ->
  dict_get (dict_of_items (before ++ (k, v) :: after)) k = Some v.
Proof.
  intros Hlast. rewrite dict_of_items_get, rev_app_distr. cbn [rev].
  rewrite <- app_assoc, dict_get_app, dict_get_not_in.
  - cbn [app dict_get]. now rewrite keyb_refl.
  - rewrite map_rev, <- in_rev. exact Hlast.
Qed.

Lemma dict_of_items_mem (items : list (K * V)) (k : K) :
  dict_mem (dict_of_items items) k = true <-> In k (map fst items).
Proof.
  unfold dict_mem. rewrite dict_of_items_get.
  fold (dict_mem (rev items) k). rewrite dict_mem_in, map_rev, <- in_rev.
  reflexivity.
Qed.

Lemma dict_of_items_in (items : list (K * V)) (k : K) (v : V) :
  dict_get (dict_of_items items) k = Some v -> In (k, v) items.
Proof.
  rewrite dict_of_items_get. intros Hg. apply in_rev. now apply dict_get_in.
Qed.

Lemma fold_dict_set_nodup (items : list (K * V)) :
  forall d,
    NoDup (map fst d) ->
    NoDup (map fst
             (fold_left (fun d kv => dict_set d (fst kv) (snd kv)) items d)).
Proof.
  induction items as [| kv items IH]; intros d Hnd; [assumption |].
  cbn [fold_left]. now apply IH, dict_set_nodup.
Qed.

Lemma dict_of_items_keys_nodup (items : list (K * V)) :
  NoDup (map fst (dict_of_items items)).
Proof. apply fold_dict_set_nodup. constructor. Qed.

End Comprehension.

Section MapM.
Context {A B : Type} (f : A -> result B).

Lemma mapM_ok (l : list A) :
  forall ys, mapM f l = Ok ys -> Forall2 (fun x y => f x = Ok y) l ys.
Proof.
  induction l as [| x l IH]; intros ys; cbn [mapM].
  - intros Heq. injection Heq as <-. constructor.
  - destruct (f x) as [y |] eqn:Ex; [| discriminate]. cbn [bind].
    destruct (mapM f l) as [ys' |]; [| discriminate]. cbn [bind].
    intros Heq. injection Heq as <-. constructor; [assumption | now apply IH].
Qed.

Lemma mapM_raise_at (before after : list A) (x : A) (e : exn) :
  Forall (fun a => exists b, f a = Ok b) before ->
  f x = Raise e ->
  mapM f (before ++ x :: after) = Raise e.
Proof.
  intros Hok Hx. induction Hok as [| a before [b Hb] Hok IH]; cbn [app mapM].
  - now rewrite Hx.
  - now rewrite Hb, IH.
Qed.

Lemma mapM_raise_first (l : list A) (e : exn) :
  mapM f l = Raise e ->
  exists before x after,
    l = (before ++ x :: after)%list
    /\ Forall (fun a => exists b, f a = Ok b) before
    /\ f x = Raise e.
Proof.
  induction l as [| a l IH]; cbn [mapM]; [discriminate |].
  destruct (f a) as [b |] eqn:Ea; cbn [bind].
  - destruct (mapM f l) as [ys |]; cbn [bind]; [discriminate |].
    intros Heq. destruct (IH Heq) as (before & x & after & -> & Hok & Hx).
    exists (a :: before), x, after.
    split; [reflexivity |]. split; [| assumption].
    constructor; [now exists b | assumption].
  - intros Heq. injection Heq as ->. exists [], a, l.
    split; [reflexivity |]. split; [constructor | assumption].
Qed.

(** The loop raises exactly the exception of the first element whose body
    raises. *)
Lemma mapM_raise_iff (l : list A) (e : exn) :
  mapM f l = Raise e
  <-> exists before x after,
        l = (before ++ x :: after)%list
        /\ Forall (fun a => exists b, f a = Ok b) before
        /\ f x = Raise e.
Proof.
  split; [apply mapM_raise_first |].
  intros (before & x & after & -> & Hok & Hx). now apply mapM_raise_at.
Qed.

End MapM.

End ComprehensionFacts.

(* ===================================================================== *)
(** * Properties of [generate]                                             *)
(* ===================================================================== *)

Module GenerateFacts.
Import Schemas PyFacts ComprehensionFacts.

Section Generate.
Context `{StrLower}.

(** The item the comprehension of [generate] builds for one column. *)
Definition property_item (pk_columns : list string) (c : Column)
  : result (string * Schema) :=
  f <- _for_column c pk_columns ;; Ok (column_name c, f).

Lemma property_item_ok (pk_columns : list string) (c : Column)
  (kv : string * Schema) :
  property_item pk_columns c = Ok kv
  <-> fst kv = column_name c /\ _for_column c pk_columns = Ok (snd kv).
Proof.
  unfold property_item. destruct (_for_column c pk_columns) as [f | e];
    cbn [bind]; destruct kv as [k v]; cbn [fst snd].
  - split.
    + intros Heq. injection Heq as <- <-. tauto.
    + intros [-> Heq]. injection Heq as <-. reflexivity.
  - split; [discriminate | intros [_ Heq]; discriminate Heq].
Qed.

Lemma property_item_raise (pk_columns : list string) (c : Column) (e : exn) :
  property_item pk_columns c = Raise e <-> _for_column c pk_columns = Raise e.
Proof.
  unfold property_item. destruct (_for_column c pk_columns); cbn [bind];
    split; congruence.
Qed.

Lemma generate_items (columns : list Column) (pk_columns : list string)
  (s : Schema) :
  generate columns pk_columns = Ok s ->
  exists items,
    Forall2 (fun c kv => fst kv = column_name c
                         /\ _for_column c pk_columns = Ok (snd kv))
      columns items
    /\ s = set_properties (Schema_new (Some (TypeName "object")) None None)
             (dict_of_items items).
Proof.
  unfold generate. fold (property_item pk_columns).
  destruct (mapM (property_item pk_columns) columns) as [items |] eqn:E;
    cbn [bind]; [| discriminate].
  intros Heq. injection Heq as <-. exists items. split; [| reflexivity].
  apply mapM_ok in E. revert E. apply Forall2_impl.
  intros c kv. apply property_item_ok.
Qed.

Lemma items_keys (pk_columns : list string) (columns : list Column)
  (items : list (string * Schema)) :
  Forall2 (fun c kv => fst kv = column_name c
                       /\ _for_column c pk_columns = Ok (snd kv))
    columns items ->
  map fst items = map column_name columns.
Proof.
  induction 1 as [| c kv columns items [Hk _] _ IH]; [reflexivity |].
  cbn [map]. now rewrite Hk, IH.
Qed.

Lemma items_in (pk_columns : list string) (columns : list Column)
  (items : list (string * Schema)) (kv : string * Schema) :
  Forall2 (fun c kv => fst kv = column_name c
                       /\ _for_column c pk_columns = Ok (snd kv))
    columns items ->
  In kv items ->
  exists c, In c columns /\ column_name c = fst kv
            /\ _for_column c pk_columns = Ok (snd kv).
Proof.
  induction 1 as [| c kv' columns items [Hk Hf] _ IH]; [contradiction |].
  intros [-> | Hin].
  - exists c. split; [now left | now split].
  - destruct (IH Hin) as (c' & Hc' & Hrest). exists c'. split; [now right |].
    exact Hrest.
Qed.

Lemma generate_binds_columns (columns : list Column)
  (pk_columns : list string) (s : Schema) :
  generate columns pk_columns = Ok s ->
  exists props,
    properties s = Some props
    /\ forall c, In c columns ->
                 exists f, dict_get props (column_name c) = Some f.
Proof.
  intros Hgen. destruct (generate_items _ _ _ Hgen) as (items & Hitems & ->).
  exists (dict_of_items items). split; [reflexivity |]. intros c Hc.
  assert (Hmem : dict_mem (dict_of_items items) (column_name c) = true).
  { apply dict_of_items_mem. rewrite (items_keys _ _ _ Hitems).
    now apply in_map. }
  unfold dict_mem in Hmem.
  destruct (dict_get (dict_of_items items) (column_name c)) as [f |];
    [now exists f | discriminate].
Qed.

Lemma generate_raises_kinds (columns : list Column)
  (pk_columns : list string) (e : exn) :
  generate columns pk_columns = Raise e ->
  e = TypeError \/ e = OverflowError.
Proof.
  unfold generate. fold (property_item pk_columns).
  destruct (mapM (property_item pk_columns) columns) as [items |] eqn:E;
    cbn [bind]; [discriminate |].
  intros Heq. injection Heq as ->. apply mapM_raise_first in E.
  destruct E as (_ & c & _ & _ & _ & Hc). apply property_item_raise in Hc.
  now apply MapperFacts.for_column_raises_kinds in Hc.
Qed.

(** X5: What [generate] returns: an object schema whose properties bind every
    column name once; each bound fragment is the mapping of a column of that
    name, and where a name occurs more than once the last column wins. *)
Theorem generate_properties (columns : list Column)
  (pk_columns : list string) (s : Schema) :
  generate columns pk_columns = Ok s ->
  type s = Some (TypeName "object")
  /\ inclusion s = None
  /\ exists props,
       properties s = Some props
       /\ NoDup (map fst props)
       /\ (forall name,
             dict_mem props name = true
             <-> In name (map column_name columns))
       /\ (forall name f,
             dict_get props name = Some f ->
             exists c, In c columns /\ column_name c = name
                       /\ _for_column c pk_columns = Ok f)
       /\ (forall before c after,
             columns = (before ++ c :: after)%list ->
             (forall c', In c' after -> column_name c' <> column_name c) ->
             exists f, _for_column c pk_columns = Ok f
                       /\ dict_get props (column_name c) = Some f).
Proof.
  intros Hgen. destruct (generate_items _ _ _ Hgen) as (items & Hitems & ->).
  split; [reflexivity |]. split; [reflexivity |].
  exists (dict_of_items items). split; [reflexivity |].
  split; [apply dict_of_items_keys_nodup |]. split; [| split].
  - intros name. rewrite dict_of_items_mem.
    now rewrite (items_keys _ _ _ Hitems).
  - intros name f Hget. apply dict_of_items_in in Hget.
    destruct (items_in _ _ _ _ Hitems Hget) as (c & Hc & Hname & Hf).
    now exists c.
  - intros before c after -> Hlast.
    apply Forall2_app_inv_l in Hitems.
    destruct Hitems as (ibefore & irest & _ & Hrest & ->).
    inversion Hrest as [| c0 [k f] l0 iafter [Hk Hf] Hafter]; subst.
    cbn [fst snd] in Hk, Hf. subst k. exists f. split; [assumption |].
    apply dict_of_items_last. rewrite (items_keys _ _ _ Hafter).
    rewrite in_map_iff. intros (c' & Heq & Hin). now apply (Hlast c').
Qed.

(** X6: [generate] raises exactly when the mapping of some column raises,
    and then with the exception of the first such column, which is
    [TypeError] or [OverflowError]. *)
Theorem generate_raises_iff (columns : list Column)
  (pk_columns : list string) (e : exn) :
  generate columns pk_columns = Raise e
  <-> (e = TypeError \/ e = OverflowError)
      /\ exists before c after,
           columns = (before ++ c :: after)%list
           /\ Forall (fun c' => exists f, _for_column c' pk_columns = Ok f)
                before
           /\ _for_column c pk_columns = Raise e.
Proof.
  unfold generate. fold (property_item pk_columns).
  assert (Hloop : mapM (property_item pk_columns) columns = Raise e
                  <-> exists before c after,
                        columns = (before ++ c :: after)%list
                        /\ Forall (fun c' => exists f,
                                     _for_column c' pk_columns = Ok f) before
                        /\ _for_column c pk_columns = Raise e).
  { rewrite mapM_raise_iff. split;
      intros (before & c & after & Heq & Hok & Hc);
      exists before, c, after; (split; [exact Heq |]); split.
    - revert Hok. apply Forall_impl. intros c' [[k f] Hkv].
      apply property_item_ok in Hkv. now exists f.
    - now apply property_item_raise.
    - revert Hok. apply Forall_impl. intros c' [f Hf].
      exists (column_name c', f). now apply property_item_ok.
    - now apply property_item_raise. }
  destruct (mapM (property_item pk_columns) columns) as [items |] eqn:E;
    cbn [bind].
  - split; [discriminate |]. intros [_ Hex]. apply Hloop in Hex.
    discriminate Hex.
  - split.
    + intros Heq. injection Heq as ->. split; [| now apply Hloop].
      destruct Hloop as [Hloop _].
      destruct (Hloop eq_refl) as (_ & c & _ & _ & _ & Hc).
      now apply MapperFacts.for_column_raises_kinds in Hc.
    + intros [_ Hex]. apply Hloop in Hex. injection Hex as ->. reflexivity.
Qed.

End Generate.

(** ** Examples, run with [ascii_lower] *)

#[local] Existing Instance ascii_StrLower.

Definition duplicate_names : list Column :=
  [mkColumn "S" "T" "ID" "integer" None None None;
   mkColumn "S" "T" "NAME" "char" (Some 8) None None;
   mkColumn "S" "T" "ID" "date" None None None].

Lemma generate_properties_witness :
  exists s props,
    generate duplicate_names ["ID"] = Ok s
    /\ properties s = Some props
    /\ map fst props = ["ID"; "NAME"]
    /\ dict_get props "ID"
       = Some (mkSchema (Some (TypeList ["null"; "string"])) None
                 (Some "automatic") None None None None None None None
                 (Some "date-time")).
Proof.
  destruct (generate duplicate_names ["ID"]) as [s |] eqn:Hgen;
    [| discriminate Hgen].
  destruct (generate_properties duplicate_names ["ID"] s Hgen)
    as (_ & _ & props & Hprops & _ & _ & _ & Hlast).
  exists s, props. split; [reflexivity |]. split; [exact Hprops |].
  vm_compute in Hgen. injection Hgen as <-.
  injection Hprops as <-. split; [reflexivity |].
  destruct (Hlast
              [mkColumn "S" "T" "ID" "integer" None None None;
               mkColumn "S" "T" "NAME" "char" (Some 8) None None]
              (mkColumn "S" "T" "ID" "date" None None None) [] eq_refl)
    as (f & Hf & Hget); [intros c' [] |].
  reflexivity.
Defined.

End GenerateFacts.

(* ===================================================================== *)
(** * Further properties of the reconciler                                 *)
(* ===================================================================== *)

Module ReconcilerFacts.
Import Discovery PyFacts ComprehensionFacts ReconcilerSpec.

(** The identity of the table a raw table row describes. *)
Definition table_row_id (row : TableRow) : TableId :=
  _table_id (Table_of_row row).

(** A columns row or a primary-key row refers to a table of [tables]. *)
Definition column_row_known (tables : dict TableId Table) (row : ColumnRow)
  : bool :=
  dict_mem tables (_table_id (Column_of_row row)).

Definition pk_row_known (tables : dict TableId Table) (row : PrimaryKeyRow)
  : bool :=
  dict_mem tables (pk_row_id row).

(** The source with the rows of unknown tables removed from the columns and
    primary-key results. *)
Definition without_orphans (config : Config) : Config :=
  let tables := _find_tables config in
  mkConfig (systables config)
    (filter (column_row_known tables) (syscolumns config))
    (filter (pk_row_known tables) (syskeycst config)).

Lemma find_tables_items (config : Config) :
  _find_tables config
  = dict_of_items
      (map (fun row => (table_row_id row, Table_of_row row))
         (_query_tables config)).
Proof. unfold _find_tables. cbv zeta. now rewrite map_map. Qed.

(** X7: The table map binds each table identity once, to the last row of the
    tables query with that identity; an identity is bound exactly when some
    row carries it, and the table found under a key has that identity. *)
Theorem find_tables_lookup (config : Config) (k : TableId) :
  let tables := _find_tables config in
  let rows := _query_tables config in
  NoDup (map fst tables)
  /\ (dict_mem tables k = true
      <-> exists row, In row rows /\ table_row_id row = k)
  /\ (forall t,
        dict_get tables k = Some t ->
        _table_id t = k /\ exists row, In row rows /\ Table_of_row row = t)
  /\ (forall before row after,
        rows = (before ++ row :: after)%list ->
        table_row_id row = k ->
        (forall r, In r after -> table_row_id r <> k) ->
        dict_get tables k = Some (Table_of_row row)).
Proof.
  intros tables rows. unfold tables. rewrite find_tables_items. fold rows.
  split; [apply dict_of_items_keys_nodup |]. split; [| split].
  - rewrite dict_of_items_mem, map_map. cbn [fst]. rewrite in_map_iff.
    split; intros [row Hrow]; exists row; tauto.
  - intros t Hget. apply dict_of_items_in in Hget.
    apply in_map_iff in Hget. destruct Hget as (row & Heq & Hin).
    injection Heq as Hk Ht. split.
    + now rewrite <- Ht.
    + now exists row.
  - intros before row after -> Hk Hlast.
    rewrite map_app. cbn [map]. rewrite Hk.
    apply dict_of_items_last. rewrite map_map. cbn [fst].
    rewrite in_map_iff. intros (r & Heq & Hin). now apply (Hlast r).
Qed.

Definition two_rows_one_table : Config :=
  mkConfig [("S", "A", "T"); ("S", "B", "V"); ("S", "A", "L")] [] [].

Lemma find_tables_lookup_witness :
  dict_get (_find_tables two_rows_one_table) ("S", "A")
  = Some (mkTable "S" "A" "L").
Proof.
  destruct (find_tables_lookup two_rows_one_table ("S", "A"))
    as (_ & _ & _ & Hlast).
  apply (Hlast [("S", "A", "T"); ("S", "B", "V")] ("S", "A", "L") []).
  - reflexivity.
  - reflexivity.
  - intros r [].
Defined.

Lemma find_primary_keys_unfold (config : Config)
  (tables : dict TableId Table) :
  _find_primary_keys config tables
  = map (fun kv => (fst kv, map snd (sorted (snd kv))))
      (fold_left (_find_primary_keys_step tables)
         (_query_primary_keys config) []).
Proof.
  unfold _find_primary_keys. cbv zeta. apply dict_of_items_nodup.
  rewrite map_map. cbn [fst]. apply loop_nodup. constructor.
Qed.

Lemma find_primary_keys_nodup (config : Config)
  (tables : dict TableId Table) :
  NoDup (map fst (_find_primary_keys config tables)).
Proof.
  rewrite find_primary_keys_unfold, map_map. cbn [fst].
  apply loop_nodup. constructor.
Qed.

Lemma dict_get_of_in {K V : Type} `{EqKey K} (d : dict K V) (k : K) (v : V) :
  NoDup (map fst d) -> In (k, v) d -> dict_get d k = Some v.
Proof.
  induction d as [| [k' v'] d IH]; cbn [map fst]; [contradiction |].
  intros Hnd [Heq | Hin]; cbn [dict_get].
  - injection Heq as -> ->. now rewrite keyb_refl.
  - apply NoDup_cons_iff in Hnd. destruct Hnd as [Hk' Hnd].
    rewrite keyb_neq; [now apply IH |].
    intros ->. apply Hk'. apply in_map_iff. now exists (k, v).
Qed.

(** X8: The shape of the primary-key map: its keys are pairwise distinct known
    tables, no key list is empty, and a table's key list has one name per
    primary-key row of that table. *)
Theorem find_primary_keys_shape (config : Config)
  (tables : dict TableId Table) :
  let pks := _find_primary_keys config tables in
  NoDup (map fst pks)
  /\ Forall (fun kv =>
               dict_mem tables (fst kv) = true
               /\ snd kv <> []
               /\ List.length (snd kv)
                  = List.length
                      (pk_rows_of (_query_primary_keys config) (fst kv)))
       pks.
Proof.
  intros pks. pose proof (find_primary_keys_nodup config tables) as Hnd.
  split; [exact Hnd |]. apply Forall_forall. intros [k names] Hin.
  cbn [fst snd]. apply (dict_get_of_in _ _ _ Hnd) in Hin.
  unfold pks in Hin. rewrite find_primary_keys_get in Hin.
  unfold pk_pairs in Hin. destruct (dict_mem tables k); [| discriminate].
  split; [reflexivity |].
  destruct (pk_rows_of (_query_primary_keys config) k) as [| p ps];
    [discriminate |].
  assert (Hn : names = map snd (sorted (p :: ps)))
    by (cbn [key_columns] in Hin; congruence).
  clear Hin. subst names.
  assert (Hlen : List.length (map snd (sorted (p :: ps)))
                 = List.length (p :: ps)).
  { rewrite length_map. apply Permutation_length, sorted_perm. }
  split; [| exact Hlen].
  intros Hnil. rewrite Hnil in Hlen. discriminate Hlen.
Qed.

Lemma loop_ignores_orphans (tables : dict TableId Table)
  (rows : list PrimaryKeyRow) :
  forall keys,
    fold_left (_find_primary_keys_step tables)
      (filter (pk_row_known tables) rows) keys
    = fold_left (_find_primary_keys_step tables) rows keys.
Proof.
  induction rows as [| row rows IH]; intros keys; [reflexivity |].
  cbn [filter fold_left]. unfold pk_row_known at 1.
  destruct (dict_mem tables (pk_row_id row)) eqn:E.
  - cbn [fold_left]. apply IH.
  - rewrite IH. f_equal. destruct row as [[[s n] c] o].
    unfold _find_primary_keys_step. cbn [pk_row_id] in E. now rewrite E.
Qed.

Lemma filter_idempotent {A : Type} (f : A -> bool) (l : list A) :
  filter f (filter f l) = filter f l.
Proof.
  induction l as [| x l IH]; [reflexivity |]. cbn [filter].
  destruct (f x) eqn:E; [| exact IH]. cbn [filter]. now rewrite E, IH.
Qed.

Lemma filter_map_commute {A B : Type} (g : A -> B) (f : B -> bool)
  (l : list A) :
  filter f (map g l) = map g (filter (fun x => f (g x)) l).
Proof.
  induction l as [| x l IH]; [reflexivity |]. cbn [map filter].
  destruct (f (g x)); cbn [map]; now rewrite IH.
Qed.

Section Discover.
Context `{StrLower}.

(** X9: Rows that refer to a table outside the tables catalog have no effect:
    removing them from the columns and primary-key results leaves the
    filtered columns, the primary-key map and the outcome of [discover]
    as they were. *)
Theorem discover_ignores_orphans (config : Config) :
  let tables := _find_tables config in
  _find_tables (without_orphans config) = tables
  /\ _find_columns (without_orphans config) tables
     = _find_columns config tables
  /\ _find_primary_keys (without_orphans config) tables
     = _find_primary_keys config tables
  /\ discover (without_orphans config) = discover config.
Proof.
  intros tables.
  assert (Ht : _find_tables (without_orphans config) = tables)
    by reflexivity.
  assert (Hc : _find_columns (without_orphans config) tables
               = _find_columns config tables).
  { unfold _find_columns, _query_columns, without_orphans. cbv zeta.
    cbn [syscolumns]. fold tables. rewrite !filter_map_commute.
    f_equal. apply filter_idempotent. }
  assert (Hp : _find_primary_keys (without_orphans config) tables
               = _find_primary_keys config tables).
  { rewrite !find_primary_keys_unfold. f_equal.
    unfold _query_primary_keys, without_orphans. cbv zeta. cbn [syskeycst].
    fold tables. apply loop_ignores_orphans. }
  split; [exact Ht |]. split; [exact Hc |]. split; [exact Hp |].
  unfold discover, discover_groups. cbv zeta. rewrite Ht, Hc, Hp.
  reflexivity.
Qed.

End Discover.

End ReconcilerFacts.

(* ===================================================================== *)
(** * Further properties of the entry assembler                            *)
(* ===================================================================== *)

Module AssemblerFacts.
Import Discovery PyFacts ComprehensionFacts GroupingSpec.

(** Two schemas agree on every attribute but inclusion and description. *)
Definition same_shape (s s' : Schema) : Prop :=
  type s' = type s
  /\ properties s' = properties s
  /\ minimum s' = minimum s
  /\ maximum s' = maximum s
  /\ exclusiveMinimum s' = exclusiveMinimum s
  /\ exclusiveMaximum s' = exclusiveMaximum s
  /\ multipleOf s' = multipleOf s
  /\ maxLength s' = maxLength s
  /\ format s' = format s.

(** X10: The table-type policy touches only [is_view] and the schema's inclusion
    and description: every other attribute of the entry and of its schema is
    kept, and an entry without a schema stays without one. *)
Theorem update_entry_frame (entry entry' : CatalogEntry)
  (table_type : string) :
  _update_entry_for_table_type entry table_type = Ok entry' ->
  database entry' = database entry
  /\ table entry' = table entry
  /\ stream entry' = stream entry
  /\ metadata entry' = metadata entry
  /\ tap_stream_id entry' = tap_stream_id entry
  /\ key_properties entry' = key_properties entry
  /\ match schema entry, schema entry' with
     | Some s, Some s' => same_shape s s'
     | None, None => True
     | _, _ => False
     end.
Proof.
  unfold _update_entry_for_table_type. cbv zeta.
  destruct (negb (str_in table_type ["T"; "V"])).
  - cbn [schema set_is_view]. destruct (schema entry) as [s |] eqn:Es;
      [| discriminate].
    intros Heq. injection Heq as <-. cbn.
    repeat split; reflexivity.
  - intros Heq. injection Heq as <-. cbn.
    destruct (schema entry); repeat split; reflexivity.
Qed.

Lemma update_entry_frame_witness :
  exists entry',
    _update_entry_for_table_type
      (mkCatalogEntry (Some "S") (Some "T") (Some "T") None (Some "S-T")
         (Some (Schema_new (Some (TypeName "object")) None None))
         (Some ["ID"]) None)
      "P"
    = Ok entry'
    /\ key_properties entry' = Some ["ID"]
    /\ tap_stream_id entry' = Some "S-T".
Proof.
  eexists. split; [reflexivity |].
  destruct (update_entry_frame
              (mkCatalogEntry (Some "S") (Some "T") (Some "T") None
                 (Some "S-T")
                 (Some (Schema_new (Some (TypeName "object")) None None))
                 (Some ["ID"]) None)
              _ "P" eq_refl)
    as (_ & _ & _ & _ & Hid & Hkeys & _).
  split; [exact Hkeys | exact Hid].
Defined.

(** X11: Applying the table-type policy a second time with the same type code
    changes nothing. *)
Theorem update_entry_idempotent (entry entry' : CatalogEntry)
  (table_type : string) :
  _update_entry_for_table_type entry table_type = Ok entry' ->
  _update_entry_for_table_type entry' table_type = Ok entry'.
Proof.
  unfold _update_entry_for_table_type. cbv zeta.
  destruct (negb (str_in table_type ["T"; "V"])) eqn:E.
  - cbn [schema set_is_view]. destruct (schema entry) as [s |];
      [| discriminate].
    intros Heq. injection Heq as <-. reflexivity.
  - intros Heq. injection Heq as <-. reflexivity.
Qed.

Lemma update_entry_idempotent_witness :
  exists entry',
    _update_entry_for_table_type
      (mkCatalogEntry (Some "S") (Some "T") (Some "T") None (Some "S-T")
         (Some (Schema_new (Some (TypeName "object")) None None)) None None)
      "A"
    = Ok entry'
    /\ _update_entry_for_table_type entry' "A" = Ok entry'.
Proof.
  eexists. split; [reflexivity |].
  apply (update_entry_idempotent
           (mkCatalogEntry (Some "S") (Some "T") (Some "T") None
              (Some "S-T")
              (Some (Schema_new (Some (TypeName "object")) None None))
              None None)).
  reflexivity.
Defined.

(** X12: The table-type policy raises in one situation only: a type code other
    than "T" and "V" on an entry that has no schema, where it raises
    [AttributeError]. *)
Theorem update_entry_raises_iff (entry : CatalogEntry) (table_type : string)
  (e : exn) :
  _update_entry_for_table_type entry table_type = Raise e
  <-> e = AttributeError
      /\ schema entry = None
      /\ table_type <> "T" /\ table_type <> "V".
Proof.
  unfold _update_entry_for_table_type. cbv zeta.
  pose proof (AssemblerSpec.str_in_T_V table_type) as HTV.
  destruct (str_in table_type ["T"; "V"]); cbn [negb].
  - assert (HT : table_type = "T" \/ table_type = "V") by now apply HTV.
    split; [discriminate | tauto].
  - assert (HT : ~ (table_type = "T" \/ table_type = "V")).
    { intros Hor. apply HTV in Hor. discriminate. }
    cbn [schema set_is_view]. destruct (schema entry) as [s |].
    + split; [discriminate | intros (_ & Hs & _); discriminate Hs].
    + split.
      * intros Heq. injection Heq as <-. tauto.
      * intros (-> & _). reflexivity.
Qed.

End AssemblerFacts.

(* ===================================================================== *)
(** * Properties of [discover] as a whole                                  *)
(* ===================================================================== *)

Module DiscoverFacts.
Import Discovery PyFacts ComprehensionFacts GroupingSpec.
Import Schemas SchemasSpec.

Section GroupbyShape.
Context {A : Type} (key : A -> TableId).

Lemma groupby_head_cons (x : A) (l : list A) :
  exists g gs, groupby key (x :: l) = (key x, x :: g) :: gs.
Proof.
  cbn [groupby]. destruct (groupby key l) as [| [k g] gs];
    [do 2 eexists; reflexivity |].
  destruct (keyb (key x) k); do 2 eexists; reflexivity.
Qed.

Lemma groupby_homogeneous (l : list A) :
  Forall (fun g => snd g <> [] /\ Forall (fun x => key x = fst g) (snd g))
    (groupby key l).
Proof.
  induction l as [| x l IH]; cbn [groupby]; [constructor |].
  destruct (groupby key l) as [| [k g] gs].
  - constructor; [| constructor]. cbn [fst snd].
    split; [discriminate | now repeat constructor].
  - apply Forall_cons_iff in IH. destruct IH as [[Hne Hg] Hgs].
    cbn [fst snd] in Hne, Hg. destruct (keyb (key x) k) eqn:E.
    + apply keyb_spec in E. constructor; [| assumption]. cbn [fst snd].
      split; [discriminate |]. constructor; [reflexivity |].
      now rewrite E.
    + constructor.
      * cbn [fst snd]. split; [discriminate | now repeat constructor].
      * constructor; [now split | assumption].
Qed.

Lemma groupby_adjacent_distinct (l : list A) :
  forall gs1 g1 g2 gs2,
    groupby key l = (gs1 ++ g1 :: g2 :: gs2)%list -> fst g1 <> fst g2.
Proof.
  induction l as [| x l IH]; intros gs1 g1 g2 gs2; cbn [groupby].
  - now destruct gs1.
  - destruct (groupby key l) as [| [k g] gs].
    + destruct gs1 as [| a [| b gs1]]; discriminate.
    + destruct (keyb (key x) k) eqn:E.
      * apply keyb_spec in E. destruct gs1 as [| a gs1]; cbn [app].
        -- intros Heq. injection Heq as <- ->. cbn [fst]. rewrite E.
           apply (IH [] (k, g) g2 gs2). reflexivity.
        -- intros Heq. injection Heq as _ ->.
           apply (IH ((k, g) :: gs1) g1 g2 gs2). reflexivity.
      * destruct gs1 as [| a gs1]; cbn [app].
        -- intros Heq. injection Heq as <- <- _. cbn [fst].
           intros Hk. rewrite Hk, keyb_refl in E. discriminate.
        -- intros Heq. injection Heq as _ Hrest.
           now apply (IH gs1 g1 g2 gs2).
Qed.

End GroupbyShape.

Lemma find_tables_get_id (config : Config) (k : TableId) (t : Table) :
  dict_get (_find_tables config) k = Some t -> _table_id t = k.
Proof.
  unfold _find_tables. cbv zeta. intros Hget.
  apply dict_of_items_in, in_map_iff in Hget.
  destruct Hget as (t' & Heq & _). injection Heq as Hk Ht. now subst t'.
Qed.

(** X13: The groups [discover] iterates over partition the filtered columns in
    order; no group is empty; the columns of a group all carry the group's
    table identity; that identity is bound in the table map to a table of
    the same identity; and two consecutive groups never share an
    identity. *)
Theorem discover_groups_structure (config : Config) :
  let tables := _find_tables config in
  let groups := discover_groups config in
  List.concat (map snd groups) = _find_columns config tables
  /\ Forall (fun g =>
               snd g <> []
               /\ Forall (fun c => _table_id c = fst g) (snd g)
               /\ exists t, dict_get tables (fst g) = Some t
                            /\ _table_id t = fst g)
       groups
  /\ (forall gs1 g1 g2 gs2,
        groups = (gs1 ++ g1 :: g2 :: gs2)%list -> fst g1 <> fst g2).
Proof.
  intros tables groups.
  assert (Hcat : List.concat (map snd groups) = _find_columns config tables)
    by apply groupby_concat.
  split; [exact Hcat |]. split; [| apply groupby_adjacent_distinct].
  pose proof (groupby_homogeneous (@_table_id Column _)
                (_find_columns config tables)) as Hhom.
  fold tables in Hhom. change (groupby _ _) with groups in Hhom.
  rewrite Forall_forall in Hhom. apply Forall_forall. intros g Hg.
  destruct (Hhom g Hg) as [Hne Hkeys]. split; [exact Hne |].
  split; [exact Hkeys |].
  destruct (snd g) as [| c cols] eqn:Eg; [contradiction |].
  assert (Hin : In c (_find_columns config tables)).
  { rewrite <- Hcat. apply in_concat. exists (snd g).
    split; [now apply in_map | rewrite Eg; now left]. }
  apply find_columns_known in Hin.
  apply Forall_inv in Hkeys. rewrite Hkeys in Hin.
  unfold dict_mem in Hin.
  destruct (dict_get tables (fst g)) as [t |] eqn:Et; [| discriminate].
  exists t. split; [reflexivity |]. now apply find_tables_get_id with config.
Qed.

Section Discover.
Context `{StrLower}.

Lemma create_column_metadata_attribute_error (col : Column)
  (cols : list Column) (schema : Schema) (props : list (string * Schema))
  (f : Schema) :
  properties schema = Some props ->
  dict_get props (column_name col) = Some f ->
  _create_column_metadata (col :: cols) schema = Raise AttributeError.
Proof.
  intros Hp Hf. unfold _create_column_metadata. cbv zeta. cbn [foldM].
  unfold _create_column_metadata_step, dict_lookup.
  rewrite Hp. cbn [bind]. rewrite Hf. reflexivity.
Qed.

Lemma discover_entry_raises (tables : dict TableId Table)
  (pks : dict TableId (list string)) (k : TableId) (c : Column)
  (cols : list Column) :
  discover_entry tables pks (k, c :: cols)
  = match generate (c :: cols) (dict_get_default pks k []) with
    | Ok _ => Raise AttributeError
    | Raise e => Raise e
    end.
Proof.
  destruct k as [s n]. unfold discover_entry.
  destruct (generate (c :: cols) _) as [sch | e] eqn:Eg;
    cbn [bind]; [| reflexivity].
  destruct (GenerateFacts.generate_binds_columns _ _ _ Eg)
    as (props & Hp & Hbound).
  destruct (Hbound c (or_introl eq_refl)) as [f Hf].
  now rewrite (create_column_metadata_attribute_error c cols sch props f).
Qed.

(** X14: the outcome of [discover]: the empty catalog when no column
    belongs to a known table, and otherwise an exception raised while it
    builds the first entry -- the exception of the first group's schema
    ([TypeError] or [OverflowError]) when mapping one of its columns raises,
    [AttributeError] from the metadata builder when it does not.  It never
    raises [KeyError] and never returns a catalog with an entry in it. *)
Theorem discover_outcome (config : Config) :
  let tables := _find_tables config in
  let columns := _find_columns config tables in
  let pks := _find_primary_keys config tables in
  (columns = [] -> discover config = Ok [])
  /\ (forall k cols rest,
        discover_groups config = (k, cols) :: rest ->
        discover config
        = match generate cols (dict_get_default pks k []) with
          | Ok _ => Raise AttributeError
          | Raise e => Raise e
          end)
  /\ (columns <> [] ->
      discover config = Raise AttributeError
      \/ discover config = Raise TypeError
      \/ discover config = Raise OverflowError)
  /\ (forall entries,
        discover config = Ok entries -> entries = [] /\ columns = []).
Proof.
  intros tables columns pks.
  assert (Hempty : columns = [] -> discover config = Ok []).
  { intros Hc. unfold discover, discover_groups. cbv zeta.
    fold tables. fold columns. now rewrite Hc. }
  assert (Hfirst : forall k cols rest,
             discover_groups config = (k, cols) :: rest ->
             discover config
             = match generate cols (dict_get_default pks k []) with
               | Ok _ => Raise AttributeError
               | Raise e => Raise e
               end).
  { intros k cols rest Hg.
    pose proof (groupby_homogeneous (@_table_id Column _) columns) as Hhom.
    change (groupby _ columns) with (discover_groups config) in Hhom.
    rewrite Hg in Hhom. apply Forall_inv in Hhom. destruct Hhom as [Hne _].
    cbn [snd] in Hne. destruct cols as [| c cols]; [contradiction |].
    unfold discover. cbv zeta. rewrite Hg. cbn [mapM].
    fold tables. fold pks. rewrite discover_entry_raises.
    now destruct (generate (c :: cols) _). }
  assert (Hraise : columns <> [] ->
                   discover config = Raise AttributeError
                   \/ discover config = Raise TypeError
                   \/ discover config = Raise OverflowError).
  { intros Hne. destruct columns as [| c columns'] eqn:Ec; [contradiction |].
    destruct (groupby_head_cons (@_table_id Column _) c columns')
      as (g & gs & Hg).
    assert (Hgroups : discover_groups config
                      = (_table_id c, c :: g) :: gs).
    { unfold discover_groups. cbv zeta. fold tables. fold columns.
      now rewrite Ec. }
    rewrite (Hfirst _ _ _ Hgroups).
    destruct (generate _ _) as [sch | e] eqn:Eg; [now left |].
    destruct (GenerateFacts.generate_raises_kinds _ _ _ Eg) as [-> | ->];
      [right; now left | right; now right]. }
  split; [exact Hempty |]. split; [exact Hfirst |]. split; [exact Hraise |].
  intros entries Hd. destruct columns as [| c columns'] eqn:Ec.
  - rewrite (Hempty eq_refl) in Hd. injection Hd as <-. now split.
  - destruct Hraise as [Hr | [Hr | Hr]]; [discriminate | | |];
      rewrite Hr in Hd; discriminate Hd.
Qed.

(** The groups of a source whose only columns row belongs to its only
    table. *)
Lemma single_column_groups (row : ColumnRow) (table_type : string)
  (keys : list PrimaryKeyRow) :
  let col := Column_of_row row in
  discover_groups
    (mkConfig [(Column_table_schema col, Column_table_name col, table_type)]
       [row] keys)
  = [(_table_id col, [col])].
Proof.
  intros col. unfold discover_groups, _find_columns, _find_tables. cbv zeta.
  unfold _query_columns, _query_tables. cbn [systables syscolumns map].
  unfold dict_of_items. cbn [fold_left dict_set fst snd filter].
  unfold dict_mem. cbn [dict_get].
  change (table_schema col, table_name col)
    with (_table_id (Table_of_row
                       (Column_table_schema col, Column_table_name col,
                        table_type))).
  rewrite keyb_refl. reflexivity.
Qed.

(** C6 fails on the code at its last clause.  The mapper does what the
    claim says: a column whose lower-cased native type is in none of the
    five families maps, without an exception, to a fragment with inclusion
    "unsupported", no type, and the description
    "Unsupported data type <lower-cased type>", and [generate] builds the
    schema.  But discovery aborts on the column all the same: the metadata
    builder raises [AttributeError] on it (the defect of C2), so [discover]
    on a table that has just this column returns no catalog. *)
Theorem unrecognized_column_aborts_discover (row : ColumnRow)
  (table_type : string) (keys : list PrimaryKeyRow)
  (pk_columns : list string) :
  let col := Column_of_row row in
  recognized (lower (data_type col)) = false ->
  (exists f,
     _for_column col pk_columns = Ok f
     /\ inclusion f = Some "unsupported"
     /\ type f = None
     /\ description f
        = Some ("Unsupported data type " ++ lower (data_type col)))
  /\ (exists s, generate [col] pk_columns = Ok s)
  /\ discover
       (mkConfig
          [(Column_table_schema col, Column_table_name col, table_type)]
          [row] keys)
     = Raise AttributeError.
Proof.
  intros col Hrec.
  pose proof (for_column_unrecognized_fragment col) as Hmap.
  split; [| split].
  - eexists. split; [apply (Hmap pk_columns Hrec) |].
    repeat split; reflexivity.
  - unfold generate. cbn [mapM]. rewrite (Hmap pk_columns Hrec).
    cbn [bind]. now eexists.
  - pose proof (single_column_groups row table_type keys) as Hgroups.
    cbv zeta in Hgroups. fold col in Hgroups.
    unfold discover. cbv zeta. rewrite Hgroups.
    cbn [mapM]. rewrite discover_entry_raises.
    unfold generate. cbn [mapM]. rewrite (Hmap _ Hrec). reflexivity.
Qed.

End Discover.

(** ** Examples, run with [ascii_lower] *)

#[local] Existing Instance ascii_StrLower.

Definition decimal_without_scale : Config :=
  mkConfig [("S", "T", "T")]
    [("S", "T", "ID", "integer", None, None, None);
     ("S", "T", "AMOUNT", "decimal", None, Some 10, None)]
    [].

Lemma discover_outcome_witness :
  discover decimal_without_scale = Raise TypeError
  /\ discover AssemblerSpec.scenario1 = Raise AttributeError
  /\ discover (mkConfig [] [("S", "T", "ID", "integer", None, None, None)] [])
     = Ok [].
Proof.
  split; [| split].
  - destruct (discover_outcome decimal_without_scale) as (_ & Hfirst & _).
    rewrite (Hfirst ("S", "T")
               [mkColumn "S" "T" "ID" "integer" None None None;
                mkColumn "S" "T" "AMOUNT" "decimal" None (Some 10) None]
               [] eq_refl).
    reflexivity.
  - destruct (discover_outcome AssemblerSpec.scenario1) as (_ & Hfirst & _).
    rewrite (Hfirst ("S", "T")
               [mkColumn "S" "T" "ID" "smallint" None None None] []
               eq_refl).
    reflexivity.
  - apply (discover_outcome
             (mkConfig [] [("S", "T", "ID", "integer", None, None, None)]
                [])).
    reflexivity.
Defined.

(** Scenario 2 of the spec, end to end: a table whose only column has the
    native type "FLOOGLE". *)
Lemma unrecognized_column_aborts_discover_witness :
  _for_column (mkColumn "S" "T" "X" "FLOOGLE" None None None) []
  = Ok (mkSchema None None (Some "unsupported")
          (Some "Unsupported data type floogle") None None None None None
          None None)
  /\ discover
       (mkConfig [("S", "T", "T")]
          [("S", "T", "X", "FLOOGLE", None, None, None)] [])
     = Raise AttributeError.
Proof.
  pose proof (unrecognized_column_aborts_discover
                ("S", "T", "X", "FLOOGLE", None, None, None) "T" [] [])
    as Hw.
  destruct (Hw eq_refl) as (_ & _ & Habort).
  split; [reflexivity | exact Habort].
Defined.

End DiscoverFacts.
